(** * cf-ddns: the Cloudflare dynamic DNS updater, embedded and verified

    A shallow embedding of [cf-ddns.py]: the [Cloudflare] class (credential
    check, zone lookup, address classification, record lookup, external IP
    resolution, record reconciliation) and the [__main__] block.

    The program is a sequence of HTTP calls and log calls.  It is modelled
    in a state-and-exception monad over
      - the state of the outside world (the provider and the echo services),
        an arbitrary deterministic transition system,
      - the trace of network calls made so far,
      - the list of calls made to the logger so far.
    Python values that travel through JSON are modelled by [pyval]; Python
    exceptions by [exn]. *)

From Stdlib Require Import ZArith Ascii String List.
From stdpp Require Import base option list gmap strings pretty.

Set Warnings "-register-all,-clear-no-such-hyp".

Local Open Scope Z_scope.

(** ** Python values *)

(** The Python objects the program handles: what [requests]' [r.json()] can
    produce (a [dict] decoded from JSON has string keys), what the program
    builds for query parameters and JSON payloads, and the [bytes] that
    [socket.inet_pton] returns.  JSON numbers are integers here; the program
    never computes with them.  A character of a [string] stands for one code
    point (below 256). *)
Inductive pyval : Type :=
| VNone
| VBool (b : bool)
| VInt (z : Z)
| VStr (s : string)
| VBytes (b : list Z)
| VList (l : list pyval)
| VDict (d : gmap string pyval).

(** Python exceptions, by class.  [HTTPError] is what [raise_for_status]
    raises, with the status and the body of the response; [RequestException]
    stands for the other failures of the [requests] transport (connection
    error, timeout, too many redirects, ...); [JSONDecodeError] is what
    [r.json()] raises on a body that is not JSON.

    An exception carries its message where the source or the library fixes
    it.  The message of a [TypeError] names the types of the operands and
    changes between versions of the interpreter, and the message of a
    [JSONDecodeError] depends on the body and on the decoder: of these two
    only the class is modelled. *)
Inductive exn : Type :=
| OSError (msg : string)
| ValueError (msg : string)
| KeyError (key : pyval)
| TypeError
| IndexError (msg : string)
| JSONDecodeError
| HTTPError (status : Z) (body : string)
| RequestException (msg : string).

(** In Python 3, [EnvironmentError] and [socket.error] are names of
    [OSError]. *)
Definition EnvironmentError : string -> exn := OSError.
Definition socket_error : string -> exn := OSError.

(** [isinstance(e, OSError)]: [requests]' exceptions derive from [IOError],
    another name of [OSError]. *)
Definition is_OSError (e : exn) : bool :=
  match e with
  | OSError _ | HTTPError _ _ | RequestException _ => true
  | _ => false
  end.

(** [isinstance(e, Exception)] *)
Definition is_Exception (e : exn) : bool := true.

Inductive outcome (A : Type) : Type :=
| Return (a : A)
| Raise (e : exn).
Arguments Return {A} a.
Arguments Raise {A} e.

(** Truth value of a Python object, as [if x:] and [and] test it. *)
Definition truthy (v : pyval) : bool :=
  match v with
  | VNone => false
  | VBool b => b
  | VInt z => negb (z =? 0)
  | VStr s => negb (String.eqb s "")
  | VBytes b => match b with [] => false | _ => true end
  | VList l => match l with [] => false | _ => true end
  | VDict d => negb (bool_decide (d = ∅))
  end.

(** [str(v)], as [str.format] and the [%s] conversion compute it, for the
    scalar values.  The [repr] of bytes, of a list or of a dict is not needed
    by any property below and is left to [repr_other]. *)
Definition py_str (repr_other : pyval -> string) (v : pyval) : string :=
  match v with
  | VNone => "None"
  | VBool true => "True"
  | VBool false => "False"
  | VInt z => pretty z
  | VStr s => s
  | VBytes _ | VList _ | VDict _ => repr_other v
  end.

(** [v == s] for a [str] [s]: only an equal [str] compares equal. *)
Definition py_eq_str (v : pyval) (s : string) : bool :=
  match v with
  | VStr s' => String.eqb s' s
  | _ => false
  end.

(** [v == b] for a [bool] [b]: [bool] is a subclass of [int], so [1 == True]
    and [0 == False] hold as well. *)
Definition py_eq_bool (v : pyval) (b : bool) : bool :=
  match v with
  | VBool b' => Bool.eqb b' b
  | VInt z => z =? (if b then 1 else 0)
  | _ => false
  end.

(** [s.startswith(p)] *)
Fixpoint is_prefix (p s : string) : bool :=
  match p, s with
  | EmptyString, _ => true
  | String a p', String b s' => if Ascii.eqb a b then is_prefix p' s' else false
  | String _ _, EmptyString => false
  end.

(** [p in s] for two [str]. *)
Fixpoint is_substring (p s : string) : bool :=
  is_prefix p s ||
  match s with
  | EmptyString => false
  | String _ s' => is_substring p s'
  end.

(** [k in v] for a [str] [k]. *)
Definition py_contains (k : string) (v : pyval) : outcome bool :=
  match v with
  | VDict d => Return (bool_decide (is_Some (d !! k)))
  | VList l => Return (existsb (fun x => py_eq_str x k) l)
  | VStr s => Return (is_substring k s)
  | VBytes _ => Raise TypeError
  | VNone | VBool _ | VInt _ => Raise TypeError
  end.

(** [v[k]] for a [str] [k]. *)
Definition py_getitem (v : pyval) (k : string) : outcome pyval :=
  match v with
  | VDict d =>
      match d !! k with
      | Some x => Return x
      | None => Raise (KeyError (VStr k))
      end
  | VList _ => Raise TypeError
  | VStr _ => Raise TypeError
  | VBytes _ => Raise TypeError
  | VNone | VBool _ | VInt _ => Raise TypeError
  end.

(** [v[0]]. *)
Definition py_getitem0 (v : pyval) : outcome pyval :=
  match v with
  | VList (x :: _) => Return x
  | VList [] => Raise (IndexError "list index out of range")
  | VStr (String a _) => Return (VStr (String a EmptyString))
  | VStr EmptyString => Raise (IndexError "string index out of range")
  | VBytes (x :: _) => Return (VInt x)
  | VBytes [] => Raise (IndexError "index out of range")
  | VDict _ => Raise (KeyError (VInt 0))
  | VNone | VBool _ | VInt _ => Raise TypeError
  end.

(** ** Python string operations *)

Definition NUL : ascii := Ascii.ascii_of_nat 0.
Definition DOT : ascii := "."%char.

(** [str.isspace] on one character: the code points below 256 that Python
    treats as whitespace (tab to carriage return, the four separators
    0x1c-0x1f, space, NEL and the no-break space). *)
Definition py_isspace (a : ascii) : bool :=
  let n := N_of_ascii a in
  ((9 <=? n) && (n <=? 13) || (28 <=? n) && (n <=? 32)
   || (n =? 133) || (n =? 160))%N.

Fixpoint lstrip (s : string) : string :=
  match s with
  | EmptyString => EmptyString
  | String a s' => if py_isspace a then lstrip s' else s
  end.

(** The characters of [s] up to its last non-space one. *)
Fixpoint rstrip (s : string) : string :=
  match s with
  | EmptyString => EmptyString
  | String a s' =>
      match rstrip s' with
      | EmptyString => if py_isspace a then EmptyString else String a EmptyString
      | r => String a r
      end
  end.

(** [s.strip()] *)
Definition strip (s : string) : string := rstrip (lstrip s).

(** [c in s] for a one-character string [c]. *)
Fixpoint contains_char (c : ascii) (s : string) : bool :=
  match s with
  | EmptyString => false
  | String a s' => Ascii.eqb a c || contains_char c s'
  end.

(** [s.split(c)] for a one-character separator: never empty, one more piece
    than there are separators. *)
Fixpoint split (c : ascii) (s : string) : list string :=
  match s with
  | EmptyString => [EmptyString]
  | String a s' =>
      if Ascii.eqb a c then EmptyString :: split c s'
      else match split c s' with
           | [] => [String a EmptyString]
           | w :: ws => String a w :: ws
           end
  end.

(** [sep.join(l)] *)
Fixpoint join (sep : string) (l : list string) : string :=
  match l with
  | [] => EmptyString
  | [x] => x
  | x :: xs => x +:+ sep +:+ join sep xs
  end.

(** [l[-2:]]: the last two elements, or all of [l] when it has fewer. *)
Definition last_two {A : Type} (l : list A) : list A :=
  drop (length l - 2)%nat l.

(** ** The outside world, the trace and the monad *)

Inductive AddressFamily : Type := AF_INET | AF_INET6.

(** [sizeof(struct in_addr)] and [sizeof(struct in6_addr)] *)
Definition addr_size (af : AddressFamily) : nat :=
  match af with AF_INET => 4%nat | AF_INET6 => 16%nat end.

(** One call of [requests.Session.request]. *)
Record Request : Type := mkRequest {
  req_method : string;
  req_url : string;
  req_params : pyval;
  req_headers : gmap string pyval;
  req_json : pyval
}.

(** What the program reads of a [requests.Response]: the status, the body
    and the body decoded as JSON ([None] when it is not JSON, where
    [r.json()] raises). *)
Record Response : Type := mkResponse {
  status_code : Z;
  text : string;
  json_body : option pyval
}.

(** A network call: a request to the provider's API through the session, or
    a plain [requests.get] of an echo service. *)
Inductive Call : Type :=
| ApiCall (r : Request)
| GetCall (url : string).

Inductive Level : Type := DEBUG | INFO | ERROR.

Inductive logarg : Type :=
| AVal (v : pyval)
| AExn (e : exn).

(** A call to the logger: [log.debug(fmt, *args)] and the like.  The list
    records the calls, whatever level the logger is set to. *)
Record LogCall : Type := mkLog {
  log_level : Level;
  log_fmt : string;
  log_args : list logarg
}.

(** The environment of a run. [W] is the state of the outside world.
    - [getenv]: the process environment;
    - [session_request]: [requests.Session.request], after its retries;
    - [requests_get]: [requests.get];
    - [inet_pton]: the C library's [inet_pton] on a C string, with the
      packed address it writes on success;
    - [repr_other]: [str()] of bytes, lists and dicts;
    - [set_iter]: the order in which a [set] of strings is iterated. *)
Record Env (W : Type) : Type := mkEnv {
  getenv : string -> option string;
  session_request : W -> Request -> W * outcome Response;
  requests_get : W -> string -> W * outcome Response;
  inet_pton : AddressFamily -> string -> option (list Z);
  repr_other : pyval -> string;
  set_iter : gset string -> list string
}.
Arguments getenv {W} _ _.
Arguments session_request {W} _ _ _.
Arguments requests_get {W} _ _ _.
Arguments inet_pton {W} _ _ _.
Arguments repr_other {W} _ _.
Arguments set_iter {W} _ _.

Record St (W : Type) : Type := mkSt {
  world : W;
  calls : list Call;
  logs : list LogCall
}.
Arguments mkSt {W} _ _ _.
Arguments world {W} _.
Arguments calls {W} _.
Arguments logs {W} _.

(** Computations: a state transformer that returns a value or raises.  The
    effects made before an exception is raised stay made. *)
Definition M (W A : Type) : Type := St W -> St W * outcome A.

Definition ret {W A} (a : A) : M W A := fun st => (st, Return a).
Definition raise {W A} (e : exn) : M W A := fun st => (st, Raise e).
Definition bind {W A B} (m : M W A) (k : A -> M W B) : M W B :=
  fun st =>
    match m st with
    | (st', Return a) => k a st'
    | (st', Raise e) => (st', Raise e)
    end.
Definition lift {W A} (o : outcome A) : M W A := fun st => (st, o).

(** [try: m  except C as err: h err], where [catches e] tells whether the
    class of [e] is [C] or a subclass of it. *)
Definition try_except {W A} (m : M W A) (catches : exn -> bool)
    (h : exn -> M W A) : M W A :=
  fun st =>
    match m st with
    | (st', Return a) => (st', Return a)
    | (st', Raise e) => if catches e then h e st' else (st', Raise e)
    end.

Declare Scope py_scope.
Delimit Scope py_scope with py.
Notation "'let*' x ':=' m 'in' k" := (bind m (fun x => k))
  (at level 10, x name, m at level 200, k at level 200) : py_scope.
Local Open Scope py_scope.

(** ** The program *)

(** The attributes of a [Cloudflare] object that [__init__] sets before it
    looks the zone up: what [_call_api] and [_get_zone_id] read. *)
Record Api : Type := mkApi {
  base_url : string;
  headers : gmap string pyval
}.

(** A constructed [Cloudflare] object. *)
Record Cloudflare : Type := mkCloudflare {
  api : Api;
  zone_id : pyval
}.

Section Program.
Context {W : Type} (E : Env W).

(** [self.log.debug], [self.log.info] and [self.log.error].  The handlers,
    the format of a line and the level of the logger are not modelled. *)
Definition log (lvl : Level) (fmt : string) (args : list logarg) : M W unit :=
  fun st => (mkSt (world st) (calls st) (logs st ++ [mkLog lvl fmt args]), Return tt).

(** [os.getenv] *)
Definition os_getenv (k : string) : pyval :=
  match getenv E k with
  | Some v => VStr v
  | None => VNone
  end.

(** [self.api.request(method, url, params=..., headers=..., json=...)] *)
Definition api_request (r : Request) : M W Response :=
  fun st =>
    let (w, o) := session_request E (world st) r in
    (mkSt w (calls st ++ [ApiCall r]) (logs st), o).

(** [requests.get(url)] *)
Definition get (url : string) : M W Response :=
  fun st =>
    let (w, o) := requests_get E (world st) url in
    (mkSt w (calls st ++ [GetCall url]) (logs st), o).

(** [r.raise_for_status()]: raises for a status from 400 to 599. *)
Definition raise_for_status (r : Response) : outcome unit :=
  if (400 <=? status_code r) && (status_code r <? 600)
  then Raise (HTTPError (status_code r) (text r))
  else Return tt.

(** [r.ok]: whether [raise_for_status] does not raise. *)
Definition ok (r : Response) : bool :=
  match raise_for_status r with
  | Return _ => true
  | Raise _ => false
  end.

(** [r.json()]: the decoded body, or the decoder's error. *)
Definition json (r : Response) : outcome pyval :=
  match json_body r with
  | Some v => Return v
  | None => Raise JSONDecodeError
  end.

(** [socket.inet_pton(af, ip_address)] for a [str]: the argument is turned
    into a C string, which fails with [ValueError] on a null character;
    then the C function is called, and the wrapper returns the
    [addr_size af] bytes it wrote or raises [socket.error].

    The conversion to a C string encodes the [str] first, and a [str] that
    cannot be encoded (one with a lone surrogate) fails there with
    [UnicodeEncodeError], another [ValueError] that [socket.error] does not
    cover.  The strings of this development have code points below 256
    only, all of which can be encoded, so that the null character is the
    one way to this failure here: what is proved below about strings
    without a null character is proved for strings of such code points, and
    says nothing about a [str] with a surrogate. *)
Definition socket_inet_pton (af : AddressFamily) (ip_address : string)
    : outcome pyval :=
  if contains_char NUL ip_address
  then Raise (ValueError "embedded null character")
  else match inet_pton E af ip_address with
       | Some packed => Return (VBytes (resize (addr_size af) 0 packed))
       | None => Raise (socket_error "illegal IP address string passed to inet_pton")
       end.

Definition _is_ipv4 (ip_address : string) : M W pyval :=
  try_except (lift (socket_inet_pton AF_INET ip_address))
    is_OSError (fun _ => ret (VBool false)).

Definition _is_ipv6 (ip_address : string) : M W pyval :=
  try_except (lift (socket_inet_pton AF_INET6 ip_address))
    is_OSError (fun _ => ret (VBool false)).

Definition _get_record_type (ip_addr : string) : M W pyval :=
  let* _ := log DEBUG "%s: Getting record type ..." [AVal (VStr ip_addr)] in
  let* v4 := _is_ipv4 ip_addr in
  if truthy v4 then ret (VStr "A")
  else
    let* v6 := _is_ipv6 ip_addr in
    if truthy v6 then ret (VStr "AAAA")
    else ret VNone.

Definition _call_api (self : Api) (method req_path : string)
    (params data : pyval) : M W pyval :=
  let* _ := log DEBUG "API request: %s %s params:%s data:%s ..."
              [AVal (VStr method); AVal (VStr (base_url self +:+ req_path));
               AVal params; AVal data] in
  let* r := api_request (mkRequest method (base_url self +:+ req_path)
                           params (headers self) data) in
  if ok r then
    let* _ := log DEBUG "API response: %s" [AVal (VStr (text r))] in
    lift (json r)
  else
    let* _ := log ERROR "Request failed: %s" [AVal (VStr (text r))] in
    let* _ := lift (raise_for_status r) in
    ret VNone.

(** ['result' in d and d['result']], as a condition. *)
Definition has_result (d : pyval) : outcome bool :=
  match py_contains "result" d with
  | Raise e => Raise e
  | Return false => Return false
  | Return true =>
      match py_getitem d "result" with
      | Raise e => Raise e
      | Return v => Return (truthy v)
      end
  end.

Definition _get_zone_id (self : Api) (name : string) : M W pyval :=
  let* _ := log DEBUG "%s: Getting zone id ..." [AVal (VStr name)] in
  let params := VDict {[ "name" := VStr name ]} in
  let* d := _call_api self "GET" "/zones" params VNone in
  let* c := lift (has_result d) in
  if c then
    let* res := lift (py_getitem d "result") in
    let* z := lift (py_getitem0 res) in
    lift (py_getitem z "id")
  else raise (ValueError (name +:+ ": No such domain")).

(** [Cloudflare(name)].  The set-up of the log handlers comes first in the
    source; it makes no network call and is not modelled. *)
Definition __init__ (name : string) : M W Cloudflare :=
  let email := os_getenv "CF_EMAIL" in
  let token := os_getenv "CF_TOKEN" in
  if negb (truthy email) || negb (truthy token) then
    raise (EnvironmentError "CF_EMAIL and CF_TOKEN envvars must be set.")
  else
    let self := mkApi "https://api.cloudflare.com/client/v4"
                  (<["X-Auth-Email" := email]> (<["X-Auth-Key" := token]> ∅)) in
    let* z := _get_zone_id self name in
    ret (mkCloudflare self z).

(** ['/zones/{}/dns_records'.format(self.zone_id)] *)
Definition dns_records_path (self : Cloudflare) : string :=
  "/zones/" +:+ py_str (repr_other E) (zone_id self) +:+ "/dns_records".

Definition _get_existing_rec (self : Cloudflare) (name : string)
    (rec_type : pyval) : M W pyval :=
  let* _ := log DEBUG "%s type:%s: Checking for existing record ..."
              [AVal (VStr name); AVal rec_type] in
  let params := VDict (<["name" := VStr name]> (<["type" := rec_type]> ∅)) in
  let* d := _call_api (api self) "GET" (dns_records_path self) params VNone in
  let* c := lift (has_result d) in
  if c then
    let* res := lift (py_getitem d "result") in
    lift (py_getitem0 res)
  else ret VNone.

(** One turn of the loop of [get_external_ips]; [ips] is the set so far. *)
Definition get_external_ip (s : string) (ips : gset string) : M W (gset string) :=
  try_except
    (let* r := get s in
     let ip := strip (text r) in
     let* _ := log DEBUG "%s: %s" [AVal (VStr s); AVal (VStr ip)] in
     if negb (String.eqb ip "") then ret ({[ ip ]} ∪ ips) else ret ips)
    is_Exception
    (fun err =>
       let* _ := log ERROR "%s: %s" [AVal (VStr s); AExn err] in
       ret ips).

Fixpoint get_external_ips_from (services : list string) (ips : gset string)
    : M W (gset string) :=
  match services with
  | [] => ret ips
  | s :: rest =>
      let* ips' := get_external_ip s ips in
      get_external_ips_from rest ips'
  end.

Definition get_external_ips (services : list string) : M W (gset string) :=
  let* _ := log DEBUG "Getting external IP addresses ..." [] in
  get_external_ips_from services ∅.

(** [prefix + v] for a [str] [prefix]: the concatenation when [v] is a
    [str], a [TypeError] when it is anything else. *)
Definition str_add (prefix : string) (v : pyval) : outcome string :=
  match v with
  | VStr s => Return (prefix +:+ s)
  | _ => Raise TypeError
  end.

(** [rec['content'] == value and rec['proxied'] == proxy] *)
Definition same_record (rec : pyval) (value : string) (proxy : bool) : outcome bool :=
  match py_getitem rec "content" with
  | Raise e => Raise e
  | Return c =>
      if py_eq_str c value then
        match py_getitem rec "proxied" with
        | Raise e => Raise e
        | Return p => Return (py_eq_bool p proxy)
        end
      else Return false
  end.

Definition set_record (self : Cloudflare) (name value : string) (proxy : bool)
    : M W unit :=
  let req_path := dns_records_path self in
  let* rt := _get_record_type value in
  if truthy rt then
    let data : gmap string pyval :=
      <["name" := VStr name]> (<["type" := rt]>
        (<["content" := VStr value]> (<["proxied" := VBool proxy]> ∅))) in
    let* rec := _get_existing_rec self name rt in
    if truthy rec then
      let* rec_id := lift (py_getitem rec "id") in
      let* same := lift (same_record rec value proxy) in
      if same then
        log DEBUG "Record exists: %s %s %s proxied:%s id:%s"
          [AVal (VStr name); AVal rt; AVal (VStr value); AVal (VBool proxy);
           AVal rec_id]
      else
        let data := <["id" := rec_id]> data in
        let* _ := log INFO "Updating record: %s %s %s proxied:%s id:%s ..."
                    [AVal (VStr name); AVal rt; AVal (VStr value);
                     AVal (VBool proxy); AVal rec_id] in
        let* path := lift (str_add (req_path +:+ "/") rec_id) in
        let* _ := _call_api (api self) "PUT" path VNone (VDict data) in
        log INFO "Success: %s %s %s proxied:%s id:%s"
          [AVal (VStr name); AVal rt; AVal (VStr value); AVal (VBool proxy);
           AVal rec_id]
    else
      let* _ := log INFO "Adding new record: %s %s %s proxied:%s ..."
                  [AVal (VStr name); AVal rt; AVal (VStr value);
                   AVal (VBool proxy)] in
      let* _ := _call_api (api self) "POST" req_path VNone (VDict data) in
      log INFO "Success: %s %s %s proxied:%s"
        [AVal (VStr name); AVal rt; AVal (VStr value); AVal (VBool proxy)]
  else
    log ERROR "Getting record type failed for %s" [AVal (VStr value)].

(** [for ip in ips: cf.set_record(name, ip, proxy)] over the addresses in
    the order of iteration. *)
Fixpoint set_records (cf : Cloudflare) (name : string) (proxy : bool)
    (ips : list string) : M W unit :=
  match ips with
  | [] => ret tt
  | ip :: rest =>
      let* _ := set_record cf name ip proxy in
      set_records cf name proxy rest
  end.

(** ['.'.join(name.split('.')[-2:])] *)
Definition domain_of (name : string) : string :=
  join "." (last_two (split DOT name)).

(** The [__main__] block, after the command line is parsed: [name] is
    [args.name], [proxy] is [args.proxy], [ip_services] is
    [args.ip_services]. *)
Definition main (name : string) (proxy : bool) (ip_services : list string)
    : M W unit :=
  if contains_char DOT name then
    let domain := domain_of name in
    let* cf := __init__ domain in
    let* ips := get_external_ips ip_services in
    set_records cf name proxy (set_iter E ips)
  else raise (ValueError (name +:+ " is not a valid hostname")).

End Program.

(** ** A concrete environment

    An environment to run the program in: the address parsers of the C
    library, and a provider that keeps a list of records in one zone and
    answers the four kinds of request the program makes.  The general
    theorems below hold in every environment; this one serves to run the
    program on concrete inputs. *)
Module Sample.

Definition digit_of (ch : ascii) : option Z :=
  let n := Z.of_N (N_of_ascii ch) in
  if (48 <=? n) && (n <=? 57) then Some (n - 48) else None.

Definition xdigit_of (ch : ascii) : option Z :=
  let n := Z.of_N (N_of_ascii ch) in
  if (48 <=? n) && (n <=? 57) then Some (n - 48)
  else if (97 <=? n) && (n <=? 102) then Some (n - 87)
  else if (65 <=? n) && (n <=? 70) then Some (n - 55)
  else None.

(** [inet_pton4]: four decimal numbers up to 255 separated by dots, no
    leading zero, nothing else.  [acc] holds the octets that are complete,
    [cur] the one being read. *)
Fixpoint pton4 (src : string) (saw_digit : bool) (octets : nat) (cur : Z)
    (acc : list Z) : option (list Z) :=
  match src with
  | EmptyString => if (octets <? 4)%nat then None else Some (acc ++ [cur])
  | String ch src' =>
      match digit_of ch with
      | Some d =>
          let new := cur * 10 + d in
          if saw_digit && (cur =? 0) then None
          else if 255 <? new then None
          else if saw_digit then pton4 src' true octets new acc
          else if (4 <? octets + 1)%nat then None
          else pton4 src' true (octets + 1)%nat new acc
      | None =>
          if Ascii.eqb ch DOT && saw_digit then
            if (octets =? 4)%nat then None
            else pton4 src' false octets 0 (acc ++ [cur])
          else None
      end
  end.

Definition inet_pton4 (src : string) : option (list Z) :=
  pton4 src false 0 0 [].

(** The end of [inet_pton6]: [tp] holds the bytes written, [colonp] the
    number of bytes written before the double colon, if there was one; the
    bytes after it move to the end of the sixteen. *)
Definition finish6 (tp : list Z) (colonp : option nat) : option (list Z) :=
  match colonp with
  | Some c =>
      if (length tp =? 16)%nat then None
      else Some (take c tp ++ replicate (16 - length tp) 0 ++ drop c tp)
  | None => if (length tp =? 16)%nat then Some tp else None
  end.

(** The loop of [inet_pton6]: groups of up to four hexadecimal digits
    separated by colons, at most one double colon, and possibly a dotted
    IPv4 address as the last four bytes.  [curtok] is where the current
    group starts. *)
Fixpoint pton6 (src curtok : string) (tp : list Z) (colonp : option nat)
    (saw_xdigit : nat) (val : Z) : option (list Z) :=
  match src with
  | EmptyString =>
      if (0 <? saw_xdigit)%nat then
        if (16 <? length tp + 2)%nat then None
        else finish6 (tp ++ [val / 256; val mod 256]) colonp
      else finish6 tp colonp
  | String ch src' =>
      match xdigit_of ch with
      | Some d =>
          if (4 <? saw_xdigit + 1)%nat then None
          else pton6 src' curtok tp colonp (saw_xdigit + 1)%nat (val * 16 + d)
      | None =>
          if Ascii.eqb ch ":" then
            if (saw_xdigit =? 0)%nat then
              match colonp with
              | Some _ => None
              | None => pton6 src' src' tp (Some (length tp)) 0%nat 0
              end
            else
              match src' with
              | EmptyString => None
              | _ =>
                  if (16 <? length tp + 2)%nat then None
                  else pton6 src' src' (tp ++ [val / 256; val mod 256])
                         colonp 0%nat 0
              end
          else if Ascii.eqb ch DOT && (length tp + 4 <=? 16)%nat then
            match inet_pton4 curtok with
            | Some v4 => finish6 (tp ++ v4) colonp
            | None => None
            end
          else None
      end
  end.

Definition inet_pton6 (src : string) : option (list Z) :=
  match src with
  | String ":" (String ":" _ as src') => pton6 src' src' [] None 0%nat 0
  | String ":" _ => None
  | _ => pton6 src src [] None 0%nat 0
  end.

Definition inet_pton (af : AddressFamily) (src : string) : option (list Z) :=
  match af with
  | AF_INET => inet_pton4 src
  | AF_INET6 => inet_pton6 src
  end.

(** The provider: one zone, its records (dicts with the keys [id], [name],
    [type], [content] and [proxied]), a counter for fresh identifiers, and
    a switch that makes it refuse every write with status 403.  [echo]
    lists what each echo service answers; a service that is not listed
    cannot be reached. *)
Record internet : Type := mkInternet {
  zone_name : string;
  zone_ident : string;
  records : list pyval;
  next_id : nat;
  read_only : bool;
  echo : list (string * outcome Response)
}.

Definition field_is (rec : pyval) (k : string) (v : pyval) : bool :=
  match rec, v with
  | VDict d, VStr s =>
      match d !! k with
      | Some x => py_eq_str x s
      | None => false
      end
  | _, _ => false
  end.

Definition param (r : Request) (k : string) : pyval :=
  match req_params r with
  | VDict d => default VNone (d !! k)
  | _ => VNone
  end.

Fixpoint drop_chars (n : nat) (s : string) : string :=
  match n, s with
  | S n', String _ s' => drop_chars n' s'
  | _, _ => s
  end.

Definition answer (result : pyval) : outcome Response :=
  Return (mkResponse 200 "{...}" (Some (VDict {[ "result" := result ]}))).

Definition refuse (status : Z) (body : string) : outcome Response :=
  Return (mkResponse status body None).

Definition base : string := "https://api.cloudflare.com/client/v4".

Definition records_url (w : internet) : string :=
  base +:+ "/zones/" +:+ zone_ident w +:+ "/dns_records".

Definition with_records (w : internet) (recs : list pyval) (n : nat) : internet :=
  mkInternet (zone_name w) (zone_ident w) recs n (read_only w) (echo w).

Definition provider (w : internet) (r : Request) : internet * outcome Response :=
  if String.eqb (req_url r) (base +:+ "/zones") && String.eqb (req_method r) "GET" then
    if py_eq_str (param r "name") (zone_name w)
    then (w, answer (VList [VDict {[ "id" := VStr (zone_ident w) ]}]))
    else (w, answer (VList []))
  else if String.eqb (req_url r) (records_url w) && String.eqb (req_method r) "GET" then
    (w, answer (VList (List.filter
                         (fun rec => field_is rec "name" (param r "name")
                                     && field_is rec "type" (param r "type"))
                         (records w))))
  else if String.eqb (req_url r) (records_url w) && String.eqb (req_method r) "POST" then
    if read_only w then (w, refuse 403 "forbidden")
    else
      match req_json r with
      | VDict d =>
          let rec := VDict (<["id" := VStr ("r" +:+ pretty (next_id w))]> d) in
          (with_records w (records w ++ [rec]) (S (next_id w)), answer rec)
      | _ => (w, refuse 400 "bad request")
      end
  else if is_prefix (records_url w +:+ "/") (req_url r) && String.eqb (req_method r) "PUT" then
    if read_only w then (w, refuse 403 "forbidden")
    else
      let id := VStr (drop_chars (String.length (records_url w +:+ "/")) (req_url r)) in
      (with_records w
         (List.map (fun rec => if field_is rec "id" id then req_json r else rec)
            (records w))
         (next_id w),
       answer (req_json r))
  else (w, refuse 404 "not found").

Definition fetch (w : internet) (url : string) : internet * outcome Response :=
  match List.find (fun p => String.eqb (fst p) url) (echo w) with
  | Some (_, o) => (w, o)
  | None => (w, Raise (RequestException "connection failed"))
  end.

(** The environment: the variables of the process and the order of
    iteration over a set are left to choose. *)
Definition env (vars : string -> option string)
    (order : gset string -> list string) : Env internet :=
  mkEnv internet vars provider fetch inet_pton (fun _ => "<object>") order.

(** The variables of a process that has both credentials. *)
Definition credentials (k : string) : option string :=
  if String.eqb k "CF_EMAIL" then Some "me@example.com"
  else if String.eqb k "CF_TOKEN" then Some "s3cr3t"
  else None.

(** A body as an echo service sends it. *)
Definition body (status : Z) (s : string) : outcome Response :=
  Return (mkResponse status s None).

Definition start (w : internet) : St internet := mkSt w [] [].

End Sample.

(** ** Vocabulary of the properties *)

Section Vocabulary.
Context {W : Type} (E : Env W).

(** A provider write: a [POST] or a [PUT] through the session. *)
Definition is_write (c : Call) : bool :=
  match c with
  | ApiCall r => String.eqb (req_method r) "POST" || String.eqb (req_method r) "PUT"
  | GetCall _ => false
  end.

Definition writes (cs : list Call) : list Call := List.filter is_write cs.


(** The calls to the logger at the level of errors. *)
Definition errors (ls : list LogCall) : list LogCall :=
  List.filter (fun l => match log_level l with ERROR => true | _ => false end) ls.

(** [s] is a valid address of the family: it can be passed to the C
    library, which accepts it. *)
Definition valid_address (af : AddressFamily) (s : string) : bool :=
  negb (contains_char NUL s) &&
  match inet_pton E af s with Some _ => true | None => false end.

(** The record type derived from an address: [A] for IPv4, [AAAA] for
    IPv6, none for an address of neither family. *)
Definition derived_type (s : string) : option string :=
  if valid_address AF_INET s then Some "A"
  else if valid_address AF_INET6 s then Some "AAAA"
  else None.

Definition type_value (t : option string) : pyval :=
  match t with
  | Some t => VStr t
  | None => VNone
  end.

(** [socket.inet_pton] reports that [s] is not an address of the family. *)
Definition not_an_address (af : AddressFamily) (s : string) : Prop :=
  exists msg, socket_inet_pton E af s = Raise (socket_error msg).

(** The state after one more call to the logger. *)
Definition logged (st : St W) (l : LogCall) : St W :=
  mkSt (world st) (calls st) (logs st ++ [l]).

(** The first thing [set_record] does with a candidate address is to log
    that it looks for its record type: the mark of an attempt. *)
Definition attempt (ip : string) : LogCall :=
  mkLog DEBUG "%s: Getting record type ..." [AVal (VStr ip)].

(** The candidate addresses whose reconciliation was attempted, read off
    the log in order. *)
Definition attempts (ls : list LogCall) : list string :=
  omap (fun l =>
          if String.eqb (log_fmt l) "%s: Getting record type ..." then
            match log_args l with
            | [AVal (VStr ip)] => Some ip
            | _ => None
            end
          else None) ls.

(** The attributes of the client of a process with the credentials
    [email] and [token]. *)
Definition client (email token : string) : Api :=
  mkApi "https://api.cloudflare.com/client/v4"
    (<["X-Auth-Email" := VStr email]> (<["X-Auth-Key" := VStr token]> ∅)).

(** [HTTPError] comes from [raise_for_status] only: the transport itself
    fails with connection errors, timeouts and the like. *)
Definition transport_ok : Prop :=
  forall w r status body,
    snd (session_request E w r) <> Raise (HTTPError status body).

(** What [_call_api] logs: the request, then the body of the response,
    as a success or as a failure. *)
Definition request_log (req : Request) : LogCall :=
  mkLog DEBUG "API request: %s %s params:%s data:%s ..."
    [AVal (VStr (req_method req)); AVal (VStr (req_url req));
     AVal (req_params req); AVal (req_json req)].

Definition response_log (body : string) : LogCall :=
  mkLog DEBUG "API response: %s" [AVal (VStr body)].

Definition failure_log (body : string) : LogCall :=
  mkLog ERROR "Request failed: %s" [AVal (VStr body)].

(** What [set_record] logs when it rejects a candidate address. *)
Definition rejection_log (value : string) : LogCall :=
  mkLog ERROR "Getting record type failed for %s" [AVal (VStr value)].

(** The four requests of the program. *)
Definition zone_request (self : Api) (name : string) : Request :=
  mkRequest "GET" (base_url self +:+ "/zones")
    (VDict {[ "name" := VStr name ]}) (headers self) VNone.

Definition lookup_request (self : Cloudflare) (name : string) (rt : pyval)
    : Request :=
  mkRequest "GET" (base_url (api self) +:+ dns_records_path E self)
    (VDict (<["name" := VStr name]> (<["type" := rt]> ∅)))
    (headers (api self)) VNone.

(** The full payload of a record: name, type, content and proxied. *)
Definition payload (name : string) (rt : pyval) (value : string)
    (proxy : bool) : gmap string pyval :=
  <["name" := VStr name]> (<["type" := rt]>
    (<["content" := VStr value]> (<["proxied" := VBool proxy]> ∅))).

Definition create_request (self : Cloudflare) (name : string) (rt : pyval)
    (value : string) (proxy : bool) : Request :=
  mkRequest "POST" (base_url (api self) +:+ dns_records_path E self)
    VNone (headers (api self)) (VDict (payload name rt value proxy)).

Definition update_request (self : Cloudflare) (name : string) (rt : pyval)
    (value : string) (proxy : bool) (rec_id : string) : Request :=
  mkRequest "PUT"
    (base_url (api self) +:+ (dns_records_path E self +:+ "/") +:+ rec_id)
    VNone (headers (api self))
    (VDict (<["id" := VStr rec_id]> (payload name rt value proxy))).

(** In the world [w] the provider answers the request with a success
    status and the JSON document [d], and the world becomes [w']. *)
Definition answers (w : W) (req : Request) (d : pyval) (w' : W) : Prop :=
  exists r, session_request E w req = (w', Return r)
            /\ ok r = true /\ json_body r = Some d.

(** In the world [w] the provider answers the request with a status from
    400 to 599 and the given body, and the world becomes [w']. *)
Definition refuses (w : W) (req : Request) (status : Z) (body : string)
    (w' : W) : Prop :=
  exists r, session_request E w req = (w', Return r)
            /\ ok r = false /\ status_code r = status /\ text r = body.

(** The [result] field of a response says that nothing matched: it is
    missing, null or an empty array. *)
Definition no_match (d : gmap string pyval) : Prop :=
  d !! "result" = None \/ d !! "result" = Some VNone
  \/ d !! "result" = Some (VList []).

(** What [_get_existing_rec] makes of a decoded response. *)
Definition existing_of (d : pyval) : outcome pyval :=
  match has_result d with
  | Raise e => Raise e
  | Return true =>
      match py_getitem d "result" with
      | Raise e => Raise e
      | Return res => py_getitem0 res
      end
  | Return false => Return VNone
  end.

(** The field [k] of the JSON payload of a request, if it has one. *)
Definition field (r : Request) (k : string) : option pyval :=
  match req_json r with
  | VDict d => d !! k
  | _ => None
  end.

(** What [set_record] logs when the record is already as wanted. *)
Definition unchanged_log (name : string) (rt : pyval) (value : string)
    (proxy : bool) (rec_id : pyval) : LogCall :=
  mkLog DEBUG "Record exists: %s %s %s proxied:%s id:%s"
    [AVal (VStr name); AVal rt; AVal (VStr value); AVal (VBool proxy);
     AVal rec_id].

(** What the echo services answer when they are asked in turn, from the
    world [w] on, and the world after the last of them. *)
Fixpoint fetch_all (services : list string) (w : W)
    : list (outcome Response) * W :=
  match services with
  | [] => ([], w)
  | s :: rest =>
      let (w1, o) := requests_get E w s in
      let (os, w2) := fetch_all rest w1 in
      (o :: os, w2)
  end.

(** The address an answer contributes: the body without the whitespace
    around it, unless that is empty or the request failed. *)
Definition address_of (o : outcome Response) : option string :=
  match o with
  | Return r => if String.eqb (strip (text r)) "" then None else Some (strip (text r))
  | Raise _ => None
  end.

(** The set of all non-empty bodies obtained from the endpoints that
    succeeded. *)
Definition collected (outs : list (outcome Response)) : gset string :=
  list_to_set (omap address_of outs).

(** What [get_external_ips] logs for an endpoint. *)
Definition resolver_log (s : string) (o : outcome Response) : LogCall :=
  match o with
  | Return r => mkLog DEBUG "%s: %s" [AVal (VStr s); AVal (VStr (strip (text r)))]
  | Raise e => mkLog ERROR "%s: %s" [AVal (VStr s); AExn e]
  end.

(** A computation reports the provider's failures when every [HTTPError]
    it raises comes right after an error is logged with its body. *)
Definition reports_failures {A} (m : M W A) : Prop :=
  forall st st' status body,
    m st = (st', Raise (HTTPError status body)) ->
    last (logs st') = Some (failure_log body).

(** An outcome that is not an [HTTPError]. *)
Definition local {A} (o : outcome A) : Prop :=
  forall status body, o <> Raise (HTTPError status body).

End Vocabulary.

(** ** More on strings *)

(** [s.count(c)] for a one-character string [c]. *)
Fixpoint count_char (c : ascii) (s : string) : nat :=
  match s with
  | EmptyString => 0%nat
  | String a s' => ((if Ascii.eqb a c then 1 else 0) + count_char c s')%nat
  end.

(** Every character of [s] is whitespace. *)
Fixpoint all_space (s : string) : bool :=
  match s with
  | EmptyString => true
  | String a s' => py_isspace a && all_space s'
  end.

Definition first_char (s : string) : option ascii :=
  match s with
  | EmptyString => None
  | String a _ => Some a
  end.

Fixpoint last_char (s : string) : option ascii :=
  match s with
  | EmptyString => None
  | String a EmptyString => Some a
  | String _ s' => last_char s'
  end.

(** [s] neither starts nor ends with whitespace. *)
Definition trimmed (s : string) : Prop :=
  (forall a, first_char s = Some a -> py_isspace a = false)
  /\ (forall a, last_char s = Some a -> py_isspace a = false).

(** ** Vocabulary of the further properties *)

Section Traces.
Context {W : Type} (E : Env W).

(** The iteration over a set goes through its elements, each once. *)
Definition set_iter_ok : Prop :=
  forall s : gset string, set_iter E s ≡ₚ elements s.

(** A computation is quiet when nothing it logs is the mark of an
    attempt. *)
Definition quiet {A} (m : M W A) : Prop :=
  forall st, exists new,
    logs (fst (m st)) = logs st ++ new /\ attempts new = [].

(** The requests that [set_record] can send for a candidate address:
    nothing; the lookup for its derived type; the lookup and the creation;
    the lookup and the update of some record. *)
Inductive record_trace (cf : Cloudflare) (name value : string) (proxy : bool)
    : list Call -> Prop :=
| trace_nothing : record_trace cf name value proxy []
| trace_lookup t :
    derived_type E value = Some t ->
    record_trace cf name value proxy
      [ApiCall (lookup_request E cf name (VStr t))]
| trace_create t :
    derived_type E value = Some t ->
    record_trace cf name value proxy
      [ApiCall (lookup_request E cf name (VStr t));
       ApiCall (create_request E cf name (VStr t) value proxy)]
| trace_update t rec_id :
    derived_type E value = Some t ->
    record_trace cf name value proxy
      [ApiCall (lookup_request E cf name (VStr t));
       ApiCall (update_request E cf name (VStr t) value proxy rec_id)].


(** A request about the record of [name] for the address [value]: the
    lookup, the creation or an update, with the derived type. *)
Definition record_call (cf : Cloudflare) (name : string) (proxy : bool)
    (value : string) (c : Call) : Prop :=
  exists t,
    derived_type E value = Some t
    /\ (c = ApiCall (lookup_request E cf name (VStr t))
        \/ c = ApiCall (create_request E cf name (VStr t) value proxy)
        \/ exists rec_id,
             c = ApiCall (update_request E cf name (VStr t) value proxy rec_id)).

End Traces.

(** ** A scenario *)

Module Scenario.
Import Sample.

Definition LF : ascii := Ascii.ascii_of_nat 10.

Definition ipify : string := "https://api.ipify.org".
Definition icanhazip : string := "https://icanhazip.com".
Definition hostname : string := "home.example.com".
Definition v4 : string := "203.0.113.7".
Definition v6 : string := "2001:db8::1".

(** A record of the provider for [hostname]. *)
Definition a_record (content : string) (proxied : bool) : gmap string pyval :=
  <["id" := VStr "r0"]> (<["name" := VStr hostname]> (<["type" := VStr "A"]>
    (<["content" := VStr content]> (<["proxied" := VBool proxied]> ∅)))).

(** The zone [example.com] with the given records; one echo service
    answers with the IPv4 address and a line feed, the other with the IPv6
    address. *)
Definition zone (recs : list pyval) (read_only : bool) : internet :=
  mkInternet "example.com" "z1" recs 1 read_only
    [(ipify, body 200 (v4 +:+ String LF "")); (icanhazip, body 200 v6)].

(** No record yet; no record and every write refused; the record as
    wanted; the record with an older address. *)
Definition fresh : internet := zone [] false.
Definition frozen : internet := zone [] true.
Definition settled : internet := zone [VDict (a_record v4 false)] false.
Definition stale : internet := zone [VDict (a_record "198.51.100.4" false)] false.

(** A zone whose only echo service sends a null character after the
    address. *)
Definition garbled : internet :=
  mkInternet "example.com" "z1" [] 1 false
    [(ipify, body 200 (v4 +:+ String NUL ""))].

Definition E0 : Env internet := env credentials elements.

(** The same environment with sets iterated the other way round. *)
Definition E1 : Env internet := env credentials (fun s => reverse (elements s)).

Definition cf0 : Cloudflare :=
  mkCloudflare (client "me@example.com" "s3cr3t") (VStr "z1").












End Scenario.

(** ** A scripted provider

    An environment whose provider answers the requests it gets, whatever
    they are, with the outcomes of a list, in order; no echo service can be
    reached.  It serves to run the program against answers that the
    provider of [Sample] never gives. *)
Module Script.
Import Sample.

Definition play (w : list (outcome Response)) (r : Request)
    : list (outcome Response) * outcome Response :=
  match w with
  | [] => ([], Raise (RequestException "connection failed"))
  | o :: w' => (w', o)
  end.

Definition env : Env (list (outcome Response)) :=
  mkEnv (list (outcome Response)) credentials play
    (fun w url => (w, Raise (RequestException "connection failed")))
    inet_pton (fun _ => "<object>") elements.

(** The answer to a lookup that finds [rec] first. *)
Definition found (rec : pyval) : outcome Response := answer (VList [rec]).

Definition start (w : list (outcome Response)) : St (list (outcome Response)) :=
  mkSt w [] [].

End Script.

(** ** Running the pieces *)

Section Runs.
Context {W : Type} (E : Env W).

Lemma bind_run {A B} (m : M W A) (k : A -> M W B) st st' a :
  m st = (st', Return a) -> bind m k st = k a st'.
Proof. intros H. unfold bind. now rewrite H. Qed.

Lemma bind_raise {A B} (m : M W A) (k : A -> M W B) st st' e :
  m st = (st', Raise e) -> bind m k st = (st', Raise e).
Proof. intros H. unfold bind. now rewrite H. Qed.

Lemma truthy_packed af packed :
  truthy (VBytes (resize (addr_size af) 0 packed)) = true.
Proof. destruct af, packed; reflexivity. Qed.

(** On a string without null character the classification logs once and
    returns the derived type. *)
Lemma _get_record_type_run (s : string) (st : St W) :
  contains_char NUL s = false ->
  _get_record_type E s st
  = (logged st (attempt s), Return (type_value (derived_type E s))).
Proof.
  intros HN.
  unfold _get_record_type, _is_ipv4, _is_ipv6, derived_type, valid_address,
    socket_inet_pton, try_except, bind, lift, log, ret, logged, attempt.
  rewrite HN. cbn [negb andb].
  destruct (inet_pton E AF_INET s) as [p4|].
  - cbn [is_OSError ret]. now rewrite truthy_packed.
  - cbn [is_OSError socket_error ret truthy].
    destruct (inet_pton E AF_INET6 s) as [p6|].
    + now rewrite truthy_packed.
    + reflexivity.
Qed.

(** On a string with a null character it logs once and lets the
    [ValueError] of [socket.inet_pton] through. *)
Lemma _get_record_type_null (s : string) (st : St W) :
  contains_char NUL s = true ->
  _get_record_type E s st
  = (logged st (attempt s), Raise (ValueError "embedded null character")).
Proof.
  intros HN.
  unfold _get_record_type, _is_ipv4, socket_inet_pton, try_except, bind,
    lift, log, logged, attempt.
  now rewrite HN.
Qed.

(** [_call_api] sends exactly one request, whatever comes back. *)
Lemma _call_api_calls self m p params data (st : St W) :
  calls (fst (_call_api E self m p params data st))
  = calls st ++ [ApiCall (mkRequest m (base_url self +:+ p) params (headers self) data)].
Proof.
  unfold _call_api, bind, log, api_request, lift, ret. cbn.
  destruct (session_request E (world st) _) as [w [r|e]]; cbn; [|reflexivity].
  destruct (ok r); cbn.
  - now destruct (json r).
  - now destruct (raise_for_status r).
Qed.

Lemma _call_api_answers self m p params data (st : St W) d w' :
  let req := mkRequest m (base_url self +:+ p) params (headers self) data in
  answers E (world st) req d w' ->
  exists body,
    _call_api E self m p params data st
    = (mkSt w' (calls st ++ [ApiCall req])
         (logs st ++ [request_log req; response_log body]), Return d).
Proof.
  intros req (r & Hr & Hok & Hd). exists (text r).
  unfold _call_api, bind, log, api_request, lift, ret, json. cbn.
  fold req. rewrite Hr. cbn. rewrite Hok, Hd. cbn.
  now rewrite <- app_assoc.
Qed.

Lemma not_ok_raises (r : Response) :
  ok r = false -> raise_for_status r = Raise (HTTPError (status_code r) (text r)).
Proof.
  unfold ok, raise_for_status.
  now destruct ((400 <=? status_code r) && (status_code r <? 600)).
Qed.

Lemma _call_api_refuses self m p params data (st : St W) status body w' :
  let req := mkRequest m (base_url self +:+ p) params (headers self) data in
  refuses E (world st) req status body w' ->
  _call_api E self m p params data st
  = (mkSt w' (calls st ++ [ApiCall req])
       (logs st ++ [request_log req; failure_log body]),
     Raise (HTTPError status body)).
Proof.
  intros req (r & Hr & Hok & Hs & Hb).
  unfold _call_api, bind, log, api_request, lift, ret. cbn.
  fold req. rewrite Hr. cbn. rewrite Hok. cbn.
  rewrite (not_ok_raises r Hok), Hs, Hb.
  now rewrite <- app_assoc.
Qed.

Lemma _get_existing_rec_answers self name rt (st : St W) d w' :
  answers E (world st) (lookup_request E self name rt) d w' ->
  exists st',
    _get_existing_rec E self name rt st = (st', existing_of d)
    /\ world st' = w'
    /\ calls st' = calls st ++ [ApiCall (lookup_request E self name rt)].
Proof.
  intros Ha.
  unfold _get_existing_rec.
  set (st0 := logged st (mkLog DEBUG "%s type:%s: Checking for existing record ..."
                           [AVal (VStr name); AVal rt])).
  destruct (_call_api_answers (api self) "GET" (dns_records_path E self)
              (VDict (<["name" := VStr name]> (<["type" := rt]> ∅))) VNone
              st0 d w' Ha) as [body Hc].
  eexists. split; [|split].
  - unfold bind at 1. unfold log at 1. fold st0.
    erewrite bind_run by exact Hc.
    unfold bind, lift, ret, existing_of.
    destruct (has_result d) as [[|]|]; cbn; try reflexivity.
    destruct (py_getitem d "result"); reflexivity.
  - reflexivity.
  - reflexivity.
Qed.

Lemma _get_existing_rec_calls self name rt (st : St W) :
  calls (fst (_get_existing_rec E self name rt st))
  = calls st ++ [ApiCall (lookup_request E self name rt)].
Proof.
  unfold _get_existing_rec, bind at 1, log at 1.
  match goal with
  | |- context [bind (_call_api E ?a ?m ?p ?ps ?dt) ?k ?s] =>
      pose proof (_call_api_calls a m p ps dt s) as Hc;
      unfold bind at 1;
      destruct (_call_api E a m p ps dt s) as [st1 [d|e]]
  end; cbn in Hc; [|exact Hc].
  unfold bind, lift, ret.
  destruct (has_result d) as [[|]|]; cbn; try exact Hc.
  destruct (py_getitem d "result"); exact Hc.
Qed.

Lemma _call_api_then_log_calls self m p params data lvl fmt args (st : St W) :
  calls (fst (bind (_call_api E self m p params data)
                (fun _ => log lvl fmt args) st))
  = calls st ++ [ApiCall (mkRequest m (base_url self +:+ p) params (headers self) data)].
Proof.
  pose proof (_call_api_calls self m p params data st) as Hc.
  unfold bind.
  destruct (_call_api E self m p params data st) as [st1 [d|e]]; exact Hc.
Qed.

Lemma derived_type_no_null (s t : string) :
  derived_type E s = Some t -> contains_char NUL s = false.
Proof.
  unfold derived_type, valid_address.
  destruct (contains_char NUL s); [discriminate | reflexivity].
Qed.

Lemma derived_type_truthy (s t : string) :
  derived_type E s = Some t -> truthy (VStr t) = true.
Proof.
  unfold derived_type.
  destruct (valid_address E AF_INET s); [intros [= <-]; reflexivity|].
  destruct (valid_address E AF_INET6 s); [intros [= <-]; reflexivity|].
  discriminate.
Qed.

Lemma truthy_dict (d : gmap string pyval) k v :
  d !! k = Some v -> truthy (VDict d) = true.
Proof.
  intros H. cbn. rewrite bool_decide_eq_false_2; [reflexivity|].
  intros ->. now rewrite lookup_empty in H.
Qed.

Lemma writes_app (l1 l2 : list Call) : writes (l1 ++ l2) = writes l1 ++ writes l2.
Proof. apply List.filter_app. Qed.

End Runs.

(** ** The record lookup and the reconciliation *)

Section Reconciler.
Context {W : Type} (E : Env W).

Lemma existing_of_first (d : gmap string pyval) first tl :
  d !! "result" = Some (VList (first :: tl)) ->
  existing_of (VDict d) = Return first.
Proof.
  intros H. unfold existing_of, has_result, py_contains, py_getitem.
  rewrite H. reflexivity.
Qed.

Lemma existing_of_no_match (d : gmap string pyval) :
  no_match d -> existing_of (VDict d) = Return VNone.
Proof.
  intros [H|[H|H]]; unfold existing_of, has_result, py_contains, py_getitem;
    rewrite H; reflexivity.
Qed.

(** C8. When the provider answers the lookup by name and type with a JSON
    object, [_get_existing_rec] returns the first element of its [result]
    array if that array is there and not empty, and returns [None],
    raising nothing, if the field is missing, null or an empty array.  It
    sends that one lookup and nothing else. *)
Theorem get_existing_rec_first_or_absent
    self name rt (st : St W) (d : gmap string pyval) w' :
  answers E (world st) (lookup_request E self name rt) (VDict d) w' ->
  calls (fst (_get_existing_rec E self name rt st))
  = calls st ++ [ApiCall (lookup_request E self name rt)]
  /\ match d !! "result" with
     | Some (VList (first :: _)) =>
         snd (_get_existing_rec E self name rt st) = Return first
     | None | Some VNone | Some (VList []) =>
         snd (_get_existing_rec E self name rt st) = Return VNone
     | Some _ => True
     end.
Proof.
  intros Ha.
  destruct (_get_existing_rec_answers E self name rt st (VDict d) w' Ha)
    as (st' & Hrun & _ & Hcalls).
  rewrite Hrun. cbn [fst snd]. split; [exact Hcalls|].
  destruct (d !! "result") as [[| | | | |[|first tl]|]|] eqn:Hres; try exact I.
  - apply existing_of_no_match. right; left; exact Hres.
  - apply existing_of_no_match. right; right; exact Hres.
  - eapply existing_of_first; exact Hres.
  - apply existing_of_no_match. left; exact Hres.
Qed.

(** One call on a record that is as wanted.  When the candidate address is
    valid and the provider's first record of the derived type has the
    candidate as content and the given proxy flag, [set_record] sends the
    lookup and nothing else, so no [POST] and no [PUT]; it returns normally
    after logging that the record exists, and leaves the provider as the
    lookup left it. *)
Lemma set_record_unchanged_no_write
    self name value proxy (st : St W) rt (d rec : gmap string pyval)
    tl rec_id w' :
  derived_type E value = Some rt ->
  answers E (world st) (lookup_request E self name (VStr rt)) (VDict d) w' ->
  d !! "result" = Some (VList (VDict rec :: tl)) ->
  rec !! "id" = Some rec_id ->
  rec !! "content" = Some (VStr value) ->
  rec !! "proxied" = Some (VBool proxy) ->
  exists st',
    set_record E self name value proxy st = (st', Return tt)
    /\ world st' = w'
    /\ calls st' = calls st ++ [ApiCall (lookup_request E self name (VStr rt))]
    /\ writes (calls st') = writes (calls st)
    /\ last (logs st') = Some (unchanged_log name (VStr rt) value proxy rec_id).
Proof.
  intros Hrt Ha Hres Hid Hc Hp.
  pose proof (derived_type_no_null E _ _ Hrt) as HN.
  destruct (_get_existing_rec_answers E self name (VStr rt)
              (logged st (attempt value)) (VDict d) w' Ha)
    as (st1 & H1 & Hw & Hcalls).
  rewrite (existing_of_first d _ _ Hres) in H1.
  exists (logged st1 (unchanged_log name (VStr rt) value proxy rec_id)).
  split; [|split; [|split; [|split]]].
  - unfold set_record.
    erewrite bind_run by (apply _get_record_type_run; exact HN).
    rewrite Hrt. cbn [type_value]. rewrite (derived_type_truthy E _ _ Hrt).
    erewrite bind_run by exact H1.
    rewrite (truthy_dict rec _ _ Hid).
    unfold bind, lift, same_record, py_getitem.
    rewrite Hid, Hc, Hp. cbn.
    rewrite String.eqb_refl, Bool.eqb_reflx. reflexivity.
  - exact Hw.
  - exact Hcalls.
  - cbn. rewrite Hcalls. cbn. rewrite writes_app. cbn. apply app_nil_r.
  - cbn. apply last_snoc.
Qed.

(** C3. With a valid candidate address and an answer to the lookup:
    if nothing matched, [set_record] sends after the lookup exactly one
    request, a [POST] with the name, the derived type, the candidate as
    content and the proxy flag, and no identifier; if the first record
    found differs from the candidate in content or in proxy flag, it sends
    exactly one request, a [PUT] to the address of that record, with the
    record's identifier and all four fields of the new record. *)
Theorem set_record_create_or_update
    self name value proxy (st : St W) rt (d : gmap string pyval) w' :
  derived_type E value = Some rt ->
  answers E (world st) (lookup_request E self name (VStr rt)) (VDict d) w' ->
  (no_match d ->
   let create := create_request E self name (VStr rt) value proxy in
   calls (fst (set_record E self name value proxy st))
   = calls st ++ [ApiCall (lookup_request E self name (VStr rt)); ApiCall create]
   /\ req_method create = "POST"
   /\ field create "id" = None
   /\ field create "name" = Some (VStr name)
   /\ field create "type" = Some (VStr rt)
   /\ field create "content" = Some (VStr value)
   /\ field create "proxied" = Some (VBool proxy))
  /\
  (forall (rec : gmap string pyval) tl rec_id content proxied,
   d !! "result" = Some (VList (VDict rec :: tl)) ->
   rec !! "id" = Some (VStr rec_id) ->
   rec !! "content" = Some (VStr content) ->
   rec !! "proxied" = Some (VBool proxied) ->
   content <> value \/ proxied <> proxy ->
   let update := update_request E self name (VStr rt) value proxy rec_id in
   calls (fst (set_record E self name value proxy st))
   = calls st ++ [ApiCall (lookup_request E self name (VStr rt)); ApiCall update]
   /\ req_method update = "PUT"
   /\ req_url update
      = base_url (api self) +:+ (dns_records_path E self +:+ "/") +:+ rec_id
   /\ field update "id" = Some (VStr rec_id)
   /\ field update "name" = Some (VStr name)
   /\ field update "type" = Some (VStr rt)
   /\ field update "content" = Some (VStr value)
   /\ field update "proxied" = Some (VBool proxy)).
Proof.
  intros Hrt Ha.
  pose proof (derived_type_no_null E _ _ Hrt) as HN.
  destruct (_get_existing_rec_answers E self name (VStr rt)
              (logged st (attempt value)) (VDict d) w' Ha)
    as (st1 & H1 & Hw & Hcalls).
  split.
  - intros Hno create. split; [|repeat split].
    rewrite (existing_of_no_match d Hno) in H1.
    unfold set_record.
    erewrite bind_run by (apply _get_record_type_run; exact HN).
    rewrite Hrt. cbn [type_value]. rewrite (derived_type_truthy E _ _ Hrt).
    erewrite bind_run by exact H1.
    cbn [truthy]. unfold bind at 1, log at 1.
    rewrite _call_api_then_log_calls. cbn [calls].
    rewrite Hcalls. cbn [calls logged]. now rewrite <- app_assoc.
  - intros rec tl rec_id content proxied Hres Hid Hc Hp Hdiff update.
    split; [|repeat split].
    rewrite (existing_of_first d _ _ Hres) in H1.
    unfold set_record.
    erewrite bind_run by (apply _get_record_type_run; exact HN).
    rewrite Hrt. cbn [type_value]. rewrite (derived_type_truthy E _ _ Hrt).
    erewrite bind_run by exact H1.
    rewrite (truthy_dict rec _ _ Hid).
    assert (same_record (VDict rec) value proxy = Return false) as Hsame.
    { unfold same_record, py_getitem. rewrite Hc, Hp. cbn.
      destruct (String.eqb_spec content value) as [->|Hne]; [|reflexivity].
      destruct Hdiff as [Hd|Hd]; [congruence|].
      now destruct proxied, proxy. }
    unfold bind at 1, lift at 1. cbn [py_getitem]. rewrite Hid.
    unfold bind at 1, lift at 1. rewrite Hsame.
    unfold bind at 1, log at 1.
    unfold bind at 1, lift at 1. cbn [str_add].
    rewrite _call_api_then_log_calls. cbn [calls].
    rewrite Hcalls. cbn [calls logged]. now rewrite <- app_assoc.
Qed.

(** Whatever the candidate and whatever the provider does, [set_record]
    sends at most the lookup and one more request. *)
Lemma set_record_calls self name value proxy (st : St W) :
  exists new,
    calls (fst (set_record E self name value proxy st)) = calls st ++ new
    /\ (length (writes new) <= 1)%nat.
Proof.
  assert (forall r, length (writes [ApiCall (lookup_request E self name r)]) <= 1)%nat
    as Hlookup by (intros; cbn; lia).
  assert (forall r x, length (writes [ApiCall (lookup_request E self name r); x]) <= 1)%nat
    as Hboth by (intros r x; cbn; destruct (is_write x); cbn; lia).
  unfold set_record.
  destruct (contains_char NUL value) eqn:HN.
  { erewrite bind_raise by (apply _get_record_type_null; exact HN).
    exists []. cbn. rewrite app_nil_r. split; [reflexivity|lia]. }
  erewrite bind_run by (apply _get_record_type_run; exact HN).
  destruct (derived_type E value) as [t|] eqn:Hrt; cbn [type_value].
  2:{ exists []. cbn. rewrite app_nil_r. split; [reflexivity|lia]. }
  rewrite (derived_type_truthy E _ _ Hrt).
  pose proof (_get_existing_rec_calls E self name (VStr t)
                (logged st (attempt value))) as Hl.
  unfold bind at 1.
  destruct (_get_existing_rec E self name (VStr t) (logged st (attempt value)))
    as [st1 [rec|e]]; cbn [fst calls logged] in Hl.
  2:{ eexists. split; [exact Hl|apply Hlookup]. }
  destruct (truthy rec).
  - unfold bind at 1, lift at 1.
    destruct (py_getitem rec "id") as [rec_id|e].
    2:{ eexists. split; [exact Hl|apply Hlookup]. }
    unfold bind at 1, lift at 1.
    destruct (same_record rec value proxy) as [[|]|e].
    + eexists. split; [exact Hl|apply Hlookup].
    + unfold bind at 1, log at 1. unfold bind at 1, lift at 1.
      destruct (str_add _ rec_id) as [path|e].
      * rewrite _call_api_then_log_calls. cbn [calls]. rewrite Hl.
        rewrite <- app_assoc. eexists. split; [reflexivity|apply Hboth].
      * eexists. split; [exact Hl|apply Hlookup].
    + eexists. split; [exact Hl|apply Hlookup].
  - unfold bind at 1, log at 1.
    rewrite _call_api_then_log_calls. cbn [calls]. rewrite Hl.
    rewrite <- app_assoc. eexists. split; [reflexivity|apply Hboth].
Qed.

Lemma set_record_invalid_run self name value proxy (st : St W) :
  not_an_address E AF_INET value ->
  not_an_address E AF_INET6 value ->
  set_record E self name value proxy st
  = (logged (logged st (attempt value)) (rejection_log value), Return tt).
Proof.
  intros [m4 H4] [m6 H6].
  assert (contains_char NUL value = false) as HN.
  { unfold socket_inet_pton in H4.
    destruct (contains_char NUL value); [discriminate|reflexivity]. }
  assert (derived_type E value = None) as Hrt.
  { unfold socket_inet_pton in H4, H6. rewrite HN in H4, H6.
    unfold derived_type, valid_address. rewrite HN.
    destruct (inet_pton E AF_INET value); [discriminate|].
    destruct (inet_pton E AF_INET6 value); [discriminate|reflexivity]. }
  unfold set_record.
  erewrite bind_run by (apply _get_record_type_run; exact HN).
  rewrite Hrt. reflexivity.
Qed.

(** X20. When [socket.inet_pton] raises [socket.error] for the candidate
    in both families, which it does on no candidate with a null character,
    [set_record] logs the rejection as an error and returns; it sends
    nothing, neither the lookup nor a write, and the provider is untouched.
    And on every candidate, whatever [socket.inet_pton] does, the requests
    [set_record] sends hold at most one write. *)
Theorem set_record_rejects_invalid self name value proxy (st : St W) :
  (not_an_address E AF_INET value ->
   not_an_address E AF_INET6 value ->
   exists st',
     set_record E self name value proxy st = (st', Return tt)
     /\ last (logs st') = Some (rejection_log value)
     /\ calls st' = calls st
     /\ world st' = world st)
  /\
  (exists new,
     calls (fst (set_record E self name value proxy st)) = calls st ++ new
     /\ (length (writes new) <= 1)%nat).
Proof.
  split; [|apply set_record_calls].
  intros H4 H6. eexists. split; [apply set_record_invalid_run; assumption|].
  split; [apply last_snoc|]. split; reflexivity.
Qed.

(** C6. Not every candidate that is no address is rejected with an error in
    the log.  An address followed by a null character is a valid address of
    neither family; on it [set_record] logs the attempt and nothing else,
    and ends with the [ValueError] that [socket.inet_pton] raises and that
    [_is_ipv4] lets through, in every environment.  No request is sent, and
    the provider is untouched. *)
Theorem set_record_raises_on_null self name proxy (st : St W) :
  derived_type E ("203.0.113.7" +:+ String NUL "") = None
  /\ set_record E self name ("203.0.113.7" +:+ String NUL "") proxy st
     = (logged st (attempt ("203.0.113.7" +:+ String NUL "")),
        Raise (ValueError "embedded null character"))
  /\ errors (logs (fst (set_record E self name ("203.0.113.7" +:+ String NUL "")
                          proxy st)))
     = errors (logs st).
Proof.
  assert (set_record E self name ("203.0.113.7" +:+ String NUL "") proxy st
          = (logged st (attempt ("203.0.113.7" +:+ String NUL "")),
             Raise (ValueError "embedded null character"))) as Hrun.
  { unfold set_record. apply bind_raise.
    apply _get_record_type_null. reflexivity. }
  split; [reflexivity|]. split; [exact Hrun|].
  rewrite Hrun. cbn [fst logged logs]. unfold errors.
  rewrite List.filter_app. cbn. apply app_nil_r.
Qed.

End Reconciler.

(** ** Address classification *)

Section Classifier.
Context {W : Type} (E : Env W).

(** Without a null character in it, every string is classified: the
    outcome is [A], [AAAA] or [None], and nothing is raised. *)
Lemma get_record_type_total (s : string) (st : St W) :
  contains_char NUL s = false ->
  snd (_get_record_type E s st) = Return (VStr "A")
  \/ snd (_get_record_type E s st) = Return (VStr "AAAA")
  \/ snd (_get_record_type E s st) = Return VNone.
Proof.
  intros HN. rewrite (_get_record_type_run E s st HN). cbn [snd].
  unfold derived_type.
  destruct (valid_address E AF_INET s); [now left|].
  destruct (valid_address E AF_INET6 s); [now right; left|now right; right].
Qed.

(** C4. The classification is not total: on an address followed by a null
    character, as an echo service may send it, [socket.inet_pton] raises
    [ValueError], which is not a [socket.error]; [_is_ipv4] does not catch
    it and [_get_record_type] raises it, in every environment. *)
Theorem get_record_type_raises_on_null (st : St W) :
  _get_record_type E ("203.0.113.7" +:+ String NUL "") st
  = (logged st (attempt ("203.0.113.7" +:+ String NUL "")),
     Raise (ValueError "embedded null character")).
Proof.
  unfold _get_record_type, _is_ipv4, socket_inet_pton, try_except, bind,
    lift, log, logged, attempt.
  reflexivity.
Qed.

End Classifier.

(** ** Resolution of the external addresses *)

Section Resolver.
Context {W : Type} (E : Env W).

Lemma get_external_ips_from_run services (ips : gset string) (st : St W) :
  get_external_ips_from E services ips st
  = (mkSt (snd (fetch_all E services (world st)))
       (calls st ++ map GetCall services)
       (logs st ++ zip_with resolver_log services (fst (fetch_all E services (world st)))),
     Return (collected (fst (fetch_all E services (world st))) ∪ ips)).
Proof.
  revert ips st. induction services as [|s rest IH]; intros ips st.
  - cbn. rewrite !app_nil_r. unfold ret, collected. cbn.
    destruct st. cbn. f_equal. f_equal. set_solver.
  - cbn [get_external_ips_from fetch_all].
    unfold bind at 1. unfold get_external_ip, try_except, bind, get, log, ret.
    destruct (requests_get E (world st) s) as [w1 [r|e]] eqn:Hget; cbn.
    + destruct (fetch_all E rest w1) as [os w2] eqn:Hrest.
      destruct (String.eqb (strip (text r)) "") eqn:Hempty; cbn;
        rewrite IH; cbn; rewrite Hrest; cbn; rewrite <- !app_assoc; cbn;
        f_equal; f_equal; unfold collected; cbn; rewrite Hempty; cbn.
      * reflexivity.
      * set_solver.
    + destruct (fetch_all E rest w1) as [os w2] eqn:Hrest.
      rewrite IH. cbn. rewrite Hrest. cbn. rewrite <- !app_assoc. cbn.
      reflexivity.
Qed.

Lemma get_external_ips_run services (st : St W) :
  get_external_ips E services st
  = (mkSt (snd (fetch_all E services (world st)))
       (calls st ++ map GetCall services)
       (logs st ++ mkLog DEBUG "Getting external IP addresses ..." []
          :: zip_with resolver_log services (fst (fetch_all E services (world st)))),
     Return (collected (fst (fetch_all E services (world st))))).
Proof.
  unfold get_external_ips, bind at 1, log at 1.
  rewrite get_external_ips_from_run. cbn. rewrite <- app_assoc. cbn.
  f_equal. f_equal. set_solver.
Qed.

Lemma elem_of_collected (outs : list (outcome Response)) (ip : string) :
  ip ∈ collected outs
  <-> exists i r, outs !! i = Some (Return r) /\ strip (text r) = ip /\ ip <> "".
Proof.
  unfold collected. rewrite elem_of_list_to_set, list_elem_of_omap. split.
  - intros (o & Hin & Ho). apply list_elem_of_lookup in Hin as [i Hi].
    destruct o as [r|e]; [|discriminate]. cbn in Ho.
    destruct (String.eqb_spec (strip (text r)) ""); [discriminate|].
    injection Ho as <-. eauto.
  - intros (i & r & Hi & <- & Hne). exists (Return r). split.
    + eapply list_elem_of_lookup_2; exact Hi.
    + cbn. destruct (String.eqb_spec (strip (text r)) ""); [contradiction|reflexivity].
Qed.



End Resolver.

(** ** Hostnames and their labels *)

Section Labels.

Lemma split_not_nil c s : split c s <> [].
Proof.
  destruct s as [|a s]; cbn; [discriminate|].
  destruct (Ascii.eqb a c); [discriminate|].
  destruct (split c s); discriminate.
Qed.

Lemma join_cons_char sep a w ws :
  join sep (String a w :: ws) = String a (join sep (w :: ws)).
Proof. destruct ws; reflexivity. Qed.

(** Joining the pieces with the separator gives the string back. *)
Lemma join_split (s : string) : join "." (split DOT s) = s.
Proof.
  induction s as [|a s IH]; [reflexivity|].
  cbn [split]. destruct (Ascii.eqb_spec a DOT) as [->|Hne].
  - pose proof (split_not_nil DOT s) as Hnil.
    destruct (split DOT s) as [|w ws] eqn:Hs; [contradiction|].
    change (join "." ("" :: w :: ws)) with ("" +:+ "." +:+ join "." (w :: ws)).
    rewrite IH. reflexivity.
  - pose proof (split_not_nil DOT s) as Hnil.
    destruct (split DOT s) as [|w ws] eqn:Hs; [contradiction|].
    rewrite join_cons_char, IH. reflexivity.
Qed.

(** No piece holds the separator. *)
Lemma split_no_sep c (s : string) :
  Forall (fun l => contains_char c l = false) (split c s).
Proof.
  induction s as [|a s IH]; cbn [split].
  - repeat constructor.
  - destruct (Ascii.eqb a c) eqn:Hac.
    + constructor; [reflexivity|exact IH].
    + destruct (split c s) as [|w ws]; [repeat constructor; cbn; now rewrite Hac|].
      inversion IH as [|? ? Hw Hws]; subst.
      constructor; [|exact Hws]. cbn. now rewrite Hac, Hw.
Qed.

(** A string with a separator has at least two pieces. *)
Lemma split_length c (s : string) :
  contains_char c s = true -> (2 <= length (split c s))%nat.
Proof.
  induction s as [|a s IH]; cbn [contains_char split]; [discriminate|].
  destruct (Ascii.eqb a c) eqn:Hac; cbn [orb].
  - intros _. pose proof (split_not_nil c s).
    destruct (split c s); [contradiction|cbn; lia].
  - intros H. specialize (IH H).
    destruct (split c s) as [|w ws]; cbn in *; lia.
Qed.

Lemma last_two_spec {A} (l : list A) :
  (2 <= length l)%nat ->
  exists pre a b, l = pre ++ [a; b] /\ last_two l = [a; b].
Proof.
  intros Hlen. unfold last_two.
  pose proof (take_drop (length l - 2) l) as Htd.
  pose proof (length_drop l (length l - 2)) as Hd.
  destruct (drop (length l - 2) l) as [|a [|b [|c tl]]] eqn:Hdrop;
    cbn in Hd; try lia.
  exists (take (length l - 2) l), a, b. split; [now symmetry|reflexivity].
Qed.

(** The registrable domain of a hostname with a dot is made of its last
    two labels. *)
Lemma domain_of_last_two (name : string) :
  contains_char DOT name = true ->
  exists labels a b,
    split DOT name = labels ++ [a; b]
    /\ domain_of name = a +:+ "." +:+ b.
Proof.
  intros Hdot.
  destruct (last_two_spec (split DOT name) (split_length DOT name Hdot))
    as (labels & a & b & Hsplit & Hlast).
  exists labels, a, b. split; [exact Hsplit|].
  unfold domain_of. rewrite Hlast. reflexivity.
Qed.

End Labels.

(** ** Start-up and orchestration *)

Section Orchestrator.
Context {W : Type} (E : Env W).

Lemma _get_zone_id_calls self name (st : St W) :
  calls (fst (_get_zone_id E self name st))
  = calls st ++ [ApiCall (zone_request self name)].
Proof.
  unfold _get_zone_id, bind at 1, log at 1.
  match goal with
  | |- context [bind (_call_api E ?a ?m ?p ?ps ?dt) ?k ?s] =>
      pose proof (_call_api_calls E a m p ps dt s) as Hc;
      unfold bind at 1;
      destruct (_call_api E a m p ps dt s) as [st1 [d|e]]
  end; cbn in Hc; [|exact Hc].
  unfold bind, lift, ret, raise.
  destruct (has_result d) as [[|]|]; cbn; try exact Hc.
  destruct (py_getitem d "result") as [res|]; cbn; [|exact Hc].
  destruct (py_getitem0 res) as [z|]; cbn; [|exact Hc].
  destruct (py_getitem z "id"); exact Hc.
Qed.

Lemma init_without_credentials name (st : St W) :
  getenv E "CF_EMAIL" = None \/ getenv E "CF_EMAIL" = Some ""
  \/ getenv E "CF_TOKEN" = None \/ getenv E "CF_TOKEN" = Some "" ->
  __init__ E name st
  = (st, Raise (EnvironmentError "CF_EMAIL and CF_TOKEN envvars must be set.")).
Proof.
  unfold __init__, os_getenv.
  intros [H|[H|[H|H]]]; rewrite H; cbn;
    try reflexivity; now rewrite orb_true_r.
Qed.

Lemma init_with_credentials name (st : St W) email token :
  getenv E "CF_EMAIL" = Some email -> email <> "" ->
  getenv E "CF_TOKEN" = Some token -> token <> "" ->
  __init__ E name st
  = bind (_get_zone_id E (client email token) name)
      (fun z => ret (mkCloudflare (client email token) z)) st.
Proof.
  intros He Hne Ht Hnt. unfold __init__, os_getenv. rewrite He, Ht. cbn.
  destruct (String.eqb_spec email ""); [contradiction|].
  destruct (String.eqb_spec token ""); [contradiction|].
  reflexivity.
Qed.

Lemma init_calls name (st : St W) email token :
  getenv E "CF_EMAIL" = Some email -> email <> "" ->
  getenv E "CF_TOKEN" = Some token -> token <> "" ->
  calls (fst (__init__ E name st))
  = calls st ++ [ApiCall (zone_request (client email token) name)].
Proof.
  intros He Hne Ht Hnt.
  rewrite (init_with_credentials name st email token He Hne Ht Hnt).
  pose proof (_get_zone_id_calls (client email token) name st) as Hc.
  unfold bind, ret.
  destruct (_get_zone_id E (client email token) name st) as [st1 [z|e]]; exact Hc.
Qed.

(** C9. If one of [CF_EMAIL] and [CF_TOKEN] is unset or empty, the
    construction of the client raises [EnvironmentError] in the state it
    started in: no network call was made.  With both set, it sends the
    zone lookup, with the two credentials as headers, and nothing else.
    So a call is made only when the credentials are there. *)
Theorem init_credentials_before_network name (st : St W) :
  (getenv E "CF_EMAIL" = None \/ getenv E "CF_EMAIL" = Some ""
   \/ getenv E "CF_TOKEN" = None \/ getenv E "CF_TOKEN" = Some "" ->
   __init__ E name st
   = (st, Raise (EnvironmentError "CF_EMAIL and CF_TOKEN envvars must be set.")))
  /\
  (forall email token,
     getenv E "CF_EMAIL" = Some email -> email <> "" ->
     getenv E "CF_TOKEN" = Some token -> token <> "" ->
     calls (fst (__init__ E name st))
     = calls st ++ [ApiCall (zone_request (client email token) name)])
  /\
  (calls (fst (__init__ E name st)) <> calls st ->
   exists email token,
     getenv E "CF_EMAIL" = Some email /\ email <> ""
     /\ getenv E "CF_TOKEN" = Some token /\ token <> "").
Proof.
  split; [apply init_without_credentials|]. split; [apply init_calls|].
  intros Hcalls.
  destruct (getenv E "CF_EMAIL") as [email|] eqn:He.
  2:{ exfalso. apply Hcalls. rewrite init_without_credentials; auto. }
  destruct (getenv E "CF_TOKEN") as [token|] eqn:Ht.
  2:{ exfalso. apply Hcalls. rewrite init_without_credentials; auto. }
  destruct (String.eqb_spec email "") as [->|Hne].
  { exfalso. apply Hcalls. rewrite init_without_credentials; auto. }
  destruct (String.eqb_spec token "") as [->|Hnt].
  { exfalso. apply Hcalls. rewrite init_without_credentials; auto. }
  eauto 10.
Qed.

Lemma set_records_calls cf name proxy ips (st : St W) :
  exists new,
    calls (fst (set_records E cf name proxy ips st)) = calls st ++ new.
Proof.
  revert st. induction ips as [|ip rest IH]; intros st.
  - exists []. cbn. now rewrite app_nil_r.
  - cbn [set_records]. unfold bind.
    destruct (set_record_calls E cf name ip proxy st) as (new & Hnew & _).
    destruct (set_record E cf name ip proxy st) as [st1 [[]|e]];
      cbn [fst] in Hnew.
    + destruct (IH st1) as [new' Hnew']. exists (new ++ new').
      rewrite Hnew', Hnew. now rewrite app_assoc.
    + exists new. exact Hnew.
Qed.

(** C7. For a hostname with a dot, the domain that [__main__] hands to the
    client is made of the last two of the labels that the dots separate,
    joined by a dot; with the credentials set it is the name the first
    request, the zone lookup, asks for.  For a hostname without a dot,
    [__main__] raises [ValueError] in the state it started in: nothing was
    sent. *)
Theorem main_registrable_domain name proxy services (st : St W) :
  (contains_char DOT name = true ->
   exists labels a b,
     split DOT name = labels ++ [a; b]
     /\ join "." (labels ++ [a; b]) = name
     /\ Forall (fun l => contains_char DOT l = false) (labels ++ [a; b])
     /\ main E name proxy services st
        = bind (__init__ E (a +:+ "." +:+ b))
            (fun cf => bind (get_external_ips E services)
               (fun ips => set_records E cf name proxy (set_iter E ips))) st
     /\ (forall email token,
           getenv E "CF_EMAIL" = Some email -> email <> "" ->
           getenv E "CF_TOKEN" = Some token -> token <> "" ->
           exists rest,
             calls (fst (main E name proxy services st))
             = calls st
               ++ ApiCall (zone_request (client email token) (a +:+ "." +:+ b))
               :: rest))
  /\
  (contains_char DOT name = false ->
   main E name proxy services st
   = (st, Raise (ValueError (name +:+ " is not a valid hostname")))).
Proof.
  split.
  - intros Hdot.
    destruct (domain_of_last_two name Hdot) as (labels & a & b & Hsplit & Hdom).
    exists labels, a, b. split; [exact Hsplit|].
    split; [rewrite <- Hsplit; apply join_split|].
    split; [rewrite <- Hsplit; apply split_no_sep|].
    assert (main E name proxy services st
            = bind (__init__ E (a +:+ "." +:+ b))
                (fun cf => bind (get_external_ips E services)
                   (fun ips => set_records E cf name proxy (set_iter E ips))) st)
      as Hmain.
    { unfold main. rewrite Hdot, Hdom. reflexivity. }
    split; [exact Hmain|].
    intros email token He Hne Ht Hnt. rewrite Hmain.
    pose proof (init_calls (a +:+ "." +:+ b) st email token He Hne Ht Hnt) as Hc.
    unfold bind at 1.
    destruct (__init__ E (a +:+ "." +:+ b) st) as [st1 [cf|e]]; cbn [fst] in Hc.
    + unfold bind. rewrite get_external_ips_run.
      match goal with
      | |- context [set_records E cf name proxy ?l ?s] =>
          destruct (set_records_calls cf name proxy l s) as [new Hnew]
      end.
      rewrite Hnew. cbn [calls]. rewrite Hc.
      rewrite <- !app_assoc. cbn. eauto.
    + exists []. exact Hc.
  - intros Hdot. unfold main. rewrite Hdot. reflexivity.
Qed.

Lemma reports_bind {A B} (m : M W A) (k : A -> M W B) :
  reports_failures m -> (forall a, reports_failures (k a)) ->
  reports_failures (bind m k).
Proof.
  intros Hm Hk st st' status body. unfold bind.
  destruct (m st) as [st1 [a|e]] eqn:Hrun.
  - apply Hk.
  - intros [= <- ->]. eapply Hm. exact Hrun.
Qed.

Lemma reports_lift {A} (o : outcome A) : local o -> reports_failures (lift o : M W A).
Proof. intros Ho st st' status body [= _ H]. now apply Ho in H. Qed.

Lemma reports_log lvl fmt args : reports_failures (log lvl fmt args : M W unit).
Proof. intros st st' status body. unfold log. discriminate. Qed.

Lemma reports_ret {A} (a : A) : reports_failures (ret a : M W A).
Proof. intros st st' status body. unfold ret. discriminate. Qed.

Lemma local_py_contains k v : local (py_contains k v).
Proof. intros status body. destruct v; discriminate. Qed.

Lemma local_py_getitem v k : local (py_getitem v k).
Proof.
  intros status body. destruct v; try discriminate.
  cbn. destruct (d !! k); discriminate.
Qed.

Lemma local_py_getitem0 v : local (py_getitem0 v).
Proof.
  intros status body.
  destruct v as [| | |[|]|[|]|[|]|]; discriminate.
Qed.

Lemma local_has_result d : local (has_result d).
Proof.
  intros status body. unfold has_result.
  pose proof (local_py_contains "result" d status body).
  destruct (py_contains "result" d) as [[|]|]; try congruence.
  pose proof (local_py_getitem d "result" status body).
  destruct (py_getitem d "result"); congruence.
Qed.

Lemma local_same_record rec value proxy : local (same_record rec value proxy).
Proof.
  intros status body. unfold same_record.
  pose proof (local_py_getitem rec "content" status body).
  destruct (py_getitem rec "content") as [c|]; [|congruence].
  destruct (py_eq_str c value); [|discriminate].
  pose proof (local_py_getitem rec "proxied" status body).
  destruct (py_getitem rec "proxied"); congruence.
Qed.

Lemma local_str_add prefix v : local (str_add prefix v).
Proof. intros status body. destruct v; discriminate. Qed.

Lemma reports_call_api self m p params data :
  transport_ok E -> reports_failures (_call_api E self m p params data).
Proof.
  intros Hto st st' status body.
  unfold _call_api, bind, log, api_request, lift, ret. cbn.
  pose proof (Hto (world st)
                (mkRequest m (base_url self +:+ p) params (headers self) data)
                status body) as Hno.
  destruct (session_request E (world st) _) as [w [r|e]]; cbn in *.
  - destruct (ok r) eqn:Hok; cbn.
    + unfold json. destruct (json_body r); discriminate.
    + rewrite (not_ok_raises r Hok). intros [= <- _ <-]. cbn.
      apply last_snoc.
  - intros [= _ ->]. contradiction.
Qed.

Lemma reports_get_record_type value : reports_failures (_get_record_type E value).
Proof.
  intros st st' status body.
  destruct (contains_char NUL value) eqn:HN.
  - rewrite (_get_record_type_null E value st HN). discriminate.
  - rewrite (_get_record_type_run E value st HN). discriminate.
Qed.

Lemma reports_get_existing_rec self name rt :
  transport_ok E -> reports_failures (_get_existing_rec E self name rt).
Proof.
  intros Hto. unfold _get_existing_rec.
  apply reports_bind; [apply reports_log|]. intros _.
  apply reports_bind; [now apply reports_call_api|]. intros d.
  apply reports_bind; [apply reports_lift, local_has_result|]. intros [|].
  - apply reports_bind; [apply reports_lift, local_py_getitem|]. intros res.
    apply reports_lift, local_py_getitem0.
  - apply reports_ret.
Qed.

Lemma reports_set_record self name value proxy :
  transport_ok E -> reports_failures (set_record E self name value proxy).
Proof.
  intros Hto. unfold set_record.
  apply reports_bind; [apply reports_get_record_type|]. intros rt.
  destruct (truthy rt); [|apply reports_log].
  apply reports_bind; [now apply reports_get_existing_rec|]. intros rec.
  destruct (truthy rec).
  - apply reports_bind; [apply reports_lift, local_py_getitem|]. intros rec_id.
    apply reports_bind; [apply reports_lift, local_same_record|]. intros [|].
    + apply reports_log.
    + apply reports_bind; [apply reports_log|]. intros _.
      apply reports_bind; [apply reports_lift, local_str_add|]. intros path.
      apply reports_bind; [now apply reports_call_api|]. intros _.
      apply reports_log.
  - apply reports_bind; [apply reports_log|]. intros _.
    apply reports_bind; [now apply reports_call_api|]. intros _.
    apply reports_log.
Qed.

Lemma set_records_app cf name proxy l1 l2 (st st1 : St W) :
  set_records E cf name proxy l1 st = (st1, Return tt) ->
  set_records E cf name proxy (l1 ++ l2) st = set_records E cf name proxy l2 st1.
Proof.
  revert st. induction l1 as [|ip l1 IH]; intros st.
  - cbn. unfold ret. now intros [= ->].
  - cbn [set_records app]. unfold bind.
    destruct (set_record E cf name ip proxy st) as [st0 [[]|e]]; [|discriminate].
    apply IH.
Qed.

(** C2, as the code has it.  When the provider refuses a request of the
    reconciliation of one candidate address, the error is logged with the
    body of the response and raised as [HTTPError]; the loop over the
    addresses does not catch it: it ends there, in the state of the
    failure, with that exception, whatever addresses were left. *)
Theorem set_records_stops_at_provider_error
    cf name proxy before ip rest (st st1 st2 : St W) status body :
  transport_ok E ->
  set_records E cf name proxy before st = (st1, Return tt) ->
  set_record E cf name ip proxy st1 = (st2, Raise (HTTPError status body)) ->
  last (logs st2) = Some (failure_log body)
  /\ set_records E cf name proxy (before ++ ip :: rest) st
     = (st2, Raise (HTTPError status body)).
Proof.
  intros Hto Hbefore Hip. split.
  - eapply reports_set_record; eassumption.
  - rewrite (set_records_app cf name proxy before (ip :: rest) st st1 Hbefore).
    cbn [set_records]. now apply bind_raise.
Qed.

End Orchestrator.

(** ** Strings: trimming, splitting and joining *)

Section Strings.

Lemma append_cons a (s t : string) : String a s +:+ t = String a (s +:+ t).
Proof. reflexivity. Qed.

Lemma append_assoc (s1 s2 s3 : string) : (s1 +:+ s2) +:+ s3 = s1 +:+ s2 +:+ s3.
Proof.
  induction s1 as [|a s1 IH]; [reflexivity|].
  rewrite !append_cons. f_equal. exact IH.
Qed.

Lemma lstrip_spec (s : string) :
  exists l, s = l +:+ lstrip s /\ all_space l = true
            /\ forall a, first_char (lstrip s) = Some a -> py_isspace a = false.
Proof.
  induction s as [|a s (l & Hs & Hl & Hf)].
  - exists "". repeat split. discriminate.
  - cbn [lstrip]. destruct (py_isspace a) eqn:Ha.
    + exists (String a l). rewrite append_cons. cbn. rewrite Ha, Hl.
      split; [now f_equal|]. split; [reflexivity|exact Hf].
    + exists "". split; [reflexivity|]. split; [reflexivity|].
      cbn. now intros ? [= <-].
Qed.

Lemma rstrip_spec (s : string) :
  exists r, s = rstrip s +:+ r /\ all_space r = true
            /\ forall a, last_char (rstrip s) = Some a -> py_isspace a = false.
Proof.
  induction s as [|a s (r & Hs & Hr & Hl)].
  - exists "". repeat split. discriminate.
  - cbn [rstrip]. destruct (rstrip s) as [|b t] eqn:Ht.
    + destruct (py_isspace a) eqn:Ha.
      * exists (String a r). change ("" +:+ r) with r in Hs.
        change ("" +:+ String a r) with (String a r). cbn. rewrite Ha, Hr.
        split; [now f_equal|]. split; [reflexivity|discriminate].
      * exists r. change ("" +:+ r) with r in Hs. rewrite append_cons.
        change ("" +:+ r) with r.
        split; [now f_equal|]. split; [exact Hr|]. cbn. now intros ? [= <-].
    + exists r. rewrite append_cons. split; [now f_equal|].
      split; [exact Hr|exact Hl].
Qed.

(** [rstrip] keeps the first character of a string that starts with a
    character that is no whitespace. *)
Lemma rstrip_first (s : string) a :
  first_char s = Some a -> py_isspace a = false -> first_char (rstrip s) = Some a.
Proof.
  destruct s as [|b s]; [discriminate|]. cbn [first_char]. intros [= ->] Ha.
  cbn [rstrip]. destruct (rstrip s); [now rewrite Ha|reflexivity].
Qed.

Lemma rstrip_empty (s : string) : rstrip s = "" -> all_space s = true.
Proof.
  induction s as [|a s IH]; [reflexivity|]. cbn [rstrip all_space].
  destruct (rstrip s); [|discriminate].
  destruct (py_isspace a); [intros _; now apply IH|discriminate].
Qed.

Lemma lstrip_fixed (s : string) :
  (forall a, first_char s = Some a -> py_isspace a = false) -> lstrip s = s.
Proof.
  destruct s as [|a s]; [reflexivity|]. intros H. cbn.
  now rewrite (H a eq_refl).
Qed.

Lemma rstrip_fixed (s : string) :
  (forall a, last_char s = Some a -> py_isspace a = false) -> rstrip s = s.
Proof.
  induction s as [|a s IH]; [reflexivity|]. intros H. cbn [rstrip].
  destruct s as [|b s].
  - cbn. now rewrite (H a eq_refl).
  - rewrite IH by exact H. reflexivity.
Qed.

Lemma strip_trimmed (s : string) : trimmed (strip s).
Proof.
  unfold strip, trimmed.
  destruct (lstrip_spec s) as (l & _ & _ & Hf).
  destruct (rstrip_spec (lstrip s)) as (r & _ & _ & Hl).
  split; [|exact Hl].
  intros a Ha.
  destruct (lstrip s) as [|b t] eqn:Hls; [discriminate|].
  pose proof (Hf b eq_refl) as Hb.
  rewrite (rstrip_first (String b t) b eq_refl Hb) in Ha. now injection Ha as <-.
Qed.

Lemma trimmed_strip (s : string) : trimmed s -> strip s = s.
Proof.
  intros [Hf Hl]. unfold strip. rewrite (lstrip_fixed s Hf). now apply rstrip_fixed.
Qed.

(** X17. [strip] takes whitespace, and only whitespace, off both ends: the
    string is the stripped string between two runs of whitespace, the
    stripped string neither starts nor ends with whitespace, and stripping
    it again changes nothing. *)
Theorem strip_removes_surrounding_whitespace (s : string) :
  (exists l r, s = l +:+ strip s +:+ r /\ all_space l = true /\ all_space r = true)
  /\ trimmed (strip s)
  /\ strip (strip s) = strip s.
Proof.
  split; [|split; [apply strip_trimmed|apply trimmed_strip, strip_trimmed]].
  destruct (lstrip_spec s) as (l & Hs & Hl & _).
  destruct (rstrip_spec (lstrip s)) as (r & Hs' & Hr & _).
  exists l, r. split; [|split; assumption].
  unfold strip. rewrite <- Hs'. exact Hs.
Qed.

Lemma split_no_sep_whole c (s : string) :
  contains_char c s = false -> split c s = [s].
Proof.
  induction s as [|a s IH]; [reflexivity|]. cbn [contains_char split].
  destruct (Ascii.eqb a c); [discriminate|]. cbn [orb]. intros H.
  now rewrite (IH H).
Qed.

Lemma split_app_sep c (x s : string) :
  contains_char c x = false ->
  split c (x +:+ String c s) = x :: split c s.
Proof.
  induction x as [|a x IH]; cbn [contains_char].
  - intros _. change ("" +:+ String c s) with (String c s). cbn.
    now rewrite Ascii.eqb_refl.
  - destruct (Ascii.eqb a c) eqn:Hac; [discriminate|]. cbn [orb]. intros H.
    rewrite append_cons. cbn [split]. rewrite Hac, (IH H). reflexivity.
Qed.

Lemma join_cons sep x y ys :
  join sep (x :: y :: ys) = x +:+ sep +:+ join sep (y :: ys).
Proof. reflexivity. Qed.

(** X18. Splitting at the dots what was joined with dots gives the pieces
    back, for a list that is not empty and whose pieces hold no dot; and a
    string splits into one more piece than it has dots. *)
Theorem split_join_round_trip (l : list string) (s : string) :
  (l <> [] ->
   Forall (fun x => contains_char DOT x = false) l ->
   split DOT (join "." l) = l)
  /\ length (split DOT s) = S (count_char DOT s).
Proof.
  split.
  - induction l as [|x [|y ys] IH]; intros Hne Hall.
    + contradiction.
    + cbn. inversion Hall; subst. now apply split_no_sep_whole.
    + rewrite join_cons. inversion Hall as [|? ? Hx Hrest]; subst.
      change ("." +:+ join "." (y :: ys)) with (String DOT (join "." (y :: ys))).
      rewrite (split_app_sep DOT x _ Hx). f_equal.
      apply IH; [discriminate|exact Hrest].
  - induction s as [|a s IH]; [reflexivity|].
    cbn [split count_char]. destruct (Ascii.eqb a DOT).
    + cbn. now rewrite IH.
    + pose proof (split_not_nil DOT s) as Hnil.
      destruct (split DOT s) as [|w ws]; [contradiction|]. cbn in *. exact IH.
Qed.

Lemma join_app_two sep (l : list string) a b :
  l <> [] -> join sep (l ++ [a; b]) = join sep l +:+ sep +:+ join sep [a; b].
Proof.
  induction l as [|x [|y ys] IH]; intros Hne.
  - contradiction.
  - reflexivity.
  - change ((x :: y :: ys) ++ [a; b]) with (x :: (y :: ys) ++ [a; b]).
    change ((y :: ys) ++ [a; b]) with (y :: (ys ++ [a; b])).
    rewrite join_cons. change (y :: ys ++ [a; b]) with ((y :: ys) ++ [a; b]).
    rewrite IH by discriminate. rewrite (join_cons sep x y ys).
    now rewrite !append_assoc.
Qed.

Lemma contains_count c (s : string) :
  contains_char c s = false <-> count_char c s = 0%nat.
Proof.
  induction s as [|a s IH]; cbn; [tauto|].
  destruct (Ascii.eqb a c); cbn; [split; [discriminate|lia]|exact IH].
Qed.

Lemma count_char_app c (s t : string) :
  count_char c (s +:+ t) = (count_char c s + count_char c t)%nat.
Proof.
  induction s as [|a s IH]; [reflexivity|].
  rewrite append_cons. cbn [count_char]. rewrite IH. lia.
Qed.

(** X19. The registrable domain is an end of the hostname; a hostname with
    at most one dot is its own domain; a hostname with a dot has a domain
    with exactly one dot; and taking the domain of a domain changes
    nothing. *)
Theorem domain_of_is_a_suffix (name : string) :
  (exists front, name = front +:+ domain_of name)
  /\ ((count_char DOT name <= 1)%nat -> domain_of name = name)
  /\ (contains_char DOT name = true -> count_char DOT (domain_of name) = 1%nat)
  /\ domain_of (domain_of name) = domain_of name.
Proof.
  destruct (contains_char DOT name) eqn:Hdot.
  - destruct (domain_of_last_two name Hdot) as (labels & a & b & Hsplit & Hdom).
    pose proof (join_split name) as Hjoin. rewrite Hsplit in Hjoin.
    pose proof (split_no_sep DOT name) as Hno. rewrite Hsplit in Hno.
    apply Forall_app in Hno as [_ Hab].
    apply Forall_cons in Hab as [Ha Hb']. apply Forall_cons in Hb' as [Hb _].
    assert (domain_of (a +:+ "." +:+ b) = a +:+ "." +:+ b) as Hidem.
    { unfold domain_of.
      change ("." +:+ b) with (String DOT b).
      rewrite (split_app_sep DOT a b Ha), (split_no_sep_whole DOT b Hb).
      reflexivity. }
    split; [|split; [|split]].
    + destruct labels as [|x xs].
      * exists "". rewrite Hdom. symmetry. exact Hjoin.
      * exists (join "." (x :: xs) +:+ "."). rewrite Hdom, <- Hjoin.
        rewrite join_app_two by discriminate. cbn [join].
        now rewrite append_assoc.
    + intros Hcount.
      pose proof (proj2 (split_join_round_trip [] name)) as Hlen.
      rewrite Hsplit, length_app in Hlen. cbn in Hlen.
      destruct labels as [|x xs]; [|cbn in Hlen; lia].
      rewrite Hdom. exact Hjoin.
    + intros _. rewrite Hdom.
      change ("." +:+ b) with (String DOT b).
      rewrite count_char_app. cbn [count_char]. rewrite Ascii.eqb_refl.
      apply contains_count in Ha, Hb. rewrite Ha, Hb. reflexivity.
    + rewrite Hdom. exact Hidem.
  - assert (domain_of name = name) as Hid.
    { unfold domain_of. now rewrite (split_no_sep_whole DOT name Hdot). }
    split; [exists ""; now rewrite Hid|]. split; [intros _; exact Hid|].
    split; [discriminate|]. now rewrite !Hid.
Qed.

End Strings.

(** ** The provider client and the classifier, case by case *)

Section Client.
Context {W : Type} (E : Env W).

(** X1. [_call_api] sends one request and logs it.  If the transport
    raises, the exception goes through and nothing more is logged.  On a
    status from 400 to 599 the body is logged as an error and [HTTPError]
    is raised: the call never returns [None].  On any other status, 3xx
    included, the body is logged and its decoding as JSON is the result, or
    a [JSONDecodeError] when the body is not JSON (of that error the class
    is stated, not the message). *)
Theorem call_api_outcomes self m p params data (st : St W) :
  let req := mkRequest m (base_url self +:+ p) params (headers self) data in
  let sent l :=
    mkSt (fst (session_request E (world st) req)) (calls st ++ [ApiCall req])
      (logs st ++ request_log req :: l) in
  match snd (session_request E (world st) req) with
  | Raise e => _call_api E self m p params data st = (sent [], Raise e)
  | Return r =>
      if (400 <=? status_code r) && (status_code r <? 600)
      then _call_api E self m p params data st
           = (sent [failure_log (text r)],
              Raise (HTTPError (status_code r) (text r)))
      else _call_api E self m p params data st
           = (sent [response_log (text r)],
              match json_body r with
              | Some d => Return d
              | None => Raise JSONDecodeError
              end)
  end.
Proof.
  intros req sent. subst sent.
  unfold _call_api, bind, log, api_request, lift, ret, ok, raise_for_status, json.
  cbn. fold req.
  destruct (session_request E (world st) req) as [w [r|e]]; cbn.
  - destruct ((400 <=? status_code r) && (status_code r <? 600)); cbn;
      rewrite <- app_assoc; cbn; [reflexivity|].
    destruct (json_body r); reflexivity.
  - reflexivity.
Qed.

Lemma _get_zone_id_answers self name (st : St W) d w' :
  answers E (world st) (zone_request self name) d w' ->
  exists st',
    _get_zone_id E self name st
    = (st', match has_result d with
            | Raise e => Raise e
            | Return true =>
                match py_getitem d "result" with
                | Raise e => Raise e
                | Return res =>
                    match py_getitem0 res with
                    | Raise e => Raise e
                    | Return z => py_getitem z "id"
                    end
                end
            | Return false => Raise (ValueError (name +:+ ": No such domain"))
            end)
    /\ world st' = w'
    /\ calls st' = calls st ++ [ApiCall (zone_request self name)].
Proof.
  intros Ha. unfold _get_zone_id.
  set (st0 := logged st (mkLog DEBUG "%s: Getting zone id ..." [AVal (VStr name)])).
  destruct (_call_api_answers E self "GET" "/zones"
              (VDict {[ "name" := VStr name ]}) VNone st0 d w' Ha) as [body Hc].
  eexists. split; [|split].
  - unfold bind at 1. unfold log at 1. fold st0.
    erewrite bind_run by exact Hc.
    unfold bind, lift, ret, raise.
    destruct (has_result d) as [[|]|]; cbn; try reflexivity.
    destruct (py_getitem d "result") as [res|]; cbn; [|reflexivity].
    destruct (py_getitem0 res); reflexivity.
  - reflexivity.
  - reflexivity.
Qed.

(** X2. When the provider answers the zone lookup with a JSON object,
    [_get_zone_id] returns the [id] of the first zone of its [result] array,
    raises [KeyError] if that zone has no [id], and raises [ValueError]
    "<name>: No such domain" if [result] is missing, null or empty. *)
Theorem get_zone_id_outcomes self name (st : St W) (d : gmap string pyval) w' :
  answers E (world st) (zone_request self name) (VDict d) w' ->
  match d !! "result" with
  | Some (VList (VDict z :: _)) =>
      snd (_get_zone_id E self name st)
      = match z !! "id" with
        | Some i => Return i
        | None => Raise (KeyError (VStr "id"))
        end
  | None | Some VNone | Some (VList []) =>
      snd (_get_zone_id E self name st)
      = Raise (ValueError (name +:+ ": No such domain"))
  | Some _ => True
  end.
Proof.
  intros Ha.
  destruct (_get_zone_id_answers self name st (VDict d) w' Ha) as (st' & Hrun & _).
  rewrite Hrun. cbn [snd].
  unfold has_result, py_contains, py_getitem.
  destruct (d !! "result") as [[| | | | |[|[| | | | | |z] tl]|]|] eqn:Hres;
    try exact I; try reflexivity.
Qed.

(** X3. On a string of code points below 256 without a null character
    [_get_record_type] asks the C library for IPv4 first: it returns [A]
    when the string is accepted as IPv4, whatever it is as IPv6, [AAAA]
    when it is accepted as IPv6 only, and [None] otherwise.  It sends
    nothing and logs once.  (The strings here are such strings: a [str]
    with a lone surrogate, on which [socket.inet_pton] raises as it does on
    a null character, is none of them.) *)
Theorem get_record_type_prefers_ipv4 (s : string) (st : St W) :
  contains_char NUL s = false ->
  _get_record_type E s st
  = (logged st (attempt s),
     Return match inet_pton E AF_INET s, inet_pton E AF_INET6 s with
            | Some _, _ => VStr "A"
            | None, Some _ => VStr "AAAA"
            | None, None => VNone
            end).
Proof.
  intros HN. rewrite (_get_record_type_run E s st HN).
  unfold derived_type, valid_address. rewrite HN. cbn.
  destruct (inet_pton E AF_INET s), (inet_pton E AF_INET6 s); reflexivity.
Qed.

End Client.

(** ** The reconciliation, edge by edge *)

Section Edges.
Context {W : Type} (E : Env W).

Lemma _call_api_unanswered self m p params data (st : St W) :
  let req := mkRequest m (base_url self +:+ p) params (headers self) data in
  (forall d w', ~ answers E (world st) req d w') ->
  exists st' e,
    _call_api E self m p params data st = (st', Raise e)
    /\ calls st' = calls st ++ [ApiCall req].
Proof.
  intros req Hno.
  unfold _call_api, bind, log, api_request, lift, ret. cbn. fold req.
  destruct (session_request E (world st) req) as [w [r|e]] eqn:Hr; cbn.
  - destruct (ok r) eqn:Hok; cbn.
    + unfold json. destruct (json_body r) as [d|] eqn:Hd.
      * exfalso. apply (Hno d w). exists r. auto.
      * eauto.
    + rewrite (not_ok_raises r Hok). cbn. eauto.
  - eauto.
Qed.

Lemma _get_existing_rec_unanswered self name rt (st : St W) :
  (forall d w', ~ answers E (world st) (lookup_request E self name rt) d w') ->
  exists st' e,
    _get_existing_rec E self name rt st = (st', Raise e)
    /\ calls st' = calls st ++ [ApiCall (lookup_request E self name rt)].
Proof.
  intros Hno. unfold _get_existing_rec.
  set (st0 := logged st (mkLog DEBUG "%s type:%s: Checking for existing record ..."
                           [AVal (VStr name); AVal rt])).
  destruct (_call_api_unanswered (api self) "GET" (dns_records_path E self)
              (VDict (<["name" := VStr name]> (<["type" := rt]> ∅))) VNone
              st0 Hno) as (st' & e & Hrun & Hc).
  exists st', e. split; [|exact Hc].
  unfold bind at 1. unfold log at 1. fold st0.
  now apply bind_raise.
Qed.

(** After an answered lookup whose [result] starts with [rec], what follows
    [_get_existing_rec] runs with [rec], in the world of the answer, with
    the lookup as the only call made. *)
Lemma lookup_then {A} self name rt (k : pyval -> M W A) (st : St W)
    (d : gmap string pyval) rec tl w' :
  answers E (world st) (lookup_request E self name rt) (VDict d) w' ->
  d !! "result" = Some (VList (rec :: tl)) ->
  exists st1,
    world st1 = w'
    /\ calls st1 = calls st ++ [ApiCall (lookup_request E self name rt)]
    /\ bind (_get_existing_rec E self name rt) k st = k rec st1.
Proof.
  intros Ha Hres.
  destruct (_get_existing_rec_answers E self name rt st (VDict d) w' Ha)
    as (st1 & Hrun & Hw & Hc).
  rewrite (existing_of_first d rec tl Hres) in Hrun.
  exists st1. split; [exact Hw|]. split; [exact Hc|].
  now apply bind_run.
Qed.

(** The start of [set_record] for a valid address: the classification, then
    the lookup. *)
Ltac after_lookup Hrt Ha Hres st1 Hw Hc :=
  unfold set_record;
  erewrite bind_run
    by (apply _get_record_type_run; exact (derived_type_no_null E _ _ Hrt));
  rewrite Hrt; cbn [type_value]; rewrite (derived_type_truthy E _ _ Hrt);
  match goal with
  | |- context [bind (_get_existing_rec E ?s ?n ?r) ?k ?st0] =>
      destruct (lookup_then s n r k st0 _ _ _ _ Ha Hres) as (st1 & Hw & Hc & ->)
  end;
  cbn [calls logged] in Hc.

(** X4. Without an answer to the lookup, be it that the transport fails,
    that the status is from 400 to 599 or that the body is not JSON,
    [set_record] raises after the lookup and writes nothing. *)
Theorem set_record_needs_the_lookup self name value proxy (st : St W) t :
  derived_type E value = Some t ->
  (forall d w',
     ~ answers E (world st) (lookup_request E self name (VStr t)) d w') ->
  exists st' e,
    set_record E self name value proxy st = (st', Raise e)
    /\ calls st' = calls st ++ [ApiCall (lookup_request E self name (VStr t))].
Proof.
  intros Hrt Hno.
  unfold set_record.
  erewrite bind_run
    by (apply _get_record_type_run; exact (derived_type_no_null E _ _ Hrt)).
  rewrite Hrt. cbn [type_value]. rewrite (derived_type_truthy E _ _ Hrt).
  destruct (_get_existing_rec_unanswered self name (VStr t)
              (logged st (attempt value)) Hno) as (st' & e & Hrun & Hc).
  exists st', e. split; [|exact Hc].
  now apply bind_raise.
Qed.

(** X5. When the first element of the [result] array is falsy (an empty
    object, null, zero, an empty string or array), [set_record] takes it for
    no record: it sends the creation after the lookup. *)
Theorem set_record_creates_on_falsy_record
    self name value proxy (st : St W) t (d : gmap string pyval) rec tl w' :
  derived_type E value = Some t ->
  answers E (world st) (lookup_request E self name (VStr t)) (VDict d) w' ->
  d !! "result" = Some (VList (rec :: tl)) ->
  truthy rec = false ->
  calls (fst (set_record E self name value proxy st))
  = calls st ++ [ApiCall (lookup_request E self name (VStr t));
                 ApiCall (create_request E self name (VStr t) value proxy)].
Proof.
  intros Hrt Ha Hres Hfalsy.
  after_lookup Hrt Ha Hres st1 Hw Hc.
  rewrite Hfalsy. unfold bind at 1, log at 1.
  rewrite _call_api_then_log_calls. cbn [calls]. rewrite Hc.
  now rewrite <- app_assoc.
Qed.

(** X6. A record that lacks a field that [set_record] reads ends the call
    with [KeyError] of that field, and nothing is written: [id] is read
    first, then [content], and [proxied] only if the content is the
    candidate. *)
Theorem set_record_incomplete_record
    self name value proxy (st : St W) t (d rec : gmap string pyval) tl w' :
  derived_type E value = Some t ->
  answers E (world st) (lookup_request E self name (VStr t)) (VDict d) w' ->
  d !! "result" = Some (VList (VDict rec :: tl)) ->
  rec <> ∅ ->
  exists st',
    calls st' = calls st ++ [ApiCall (lookup_request E self name (VStr t))]
    /\ match rec !! "id", rec !! "content", rec !! "proxied" with
       | None, _, _ =>
           set_record E self name value proxy st
           = (st', Raise (KeyError (VStr "id")))
       | Some _, None, _ =>
           set_record E self name value proxy st
           = (st', Raise (KeyError (VStr "content")))
       | Some _, Some c, None =>
           py_eq_str c value = true ->
           set_record E self name value proxy st
           = (st', Raise (KeyError (VStr "proxied")))
       | Some _, Some _, Some _ => True
       end.
Proof.
  intros Hrt Ha Hres Hne.
  assert (truthy (VDict rec) = true) as Htruthy.
  { cbn. now rewrite bool_decide_eq_false_2. }
  after_lookup Hrt Ha Hres st1 Hw Hc.
  exists st1. split; [exact Hc|].
  rewrite Htruthy. unfold bind, lift, same_record, py_getitem.
  destruct (rec !! "id") as [i|]; [|reflexivity].
  destruct (rec !! "content") as [c|]; [|reflexivity].
  destruct (rec !! "proxied") as [p|]; [exact I|].
  intros ->. reflexivity.
Qed.

(** X7. The record is compared with Python's [==] and [and]: when the
    content is not the candidate the [proxied] field is not read, so the
    update goes out even for a record without that field; when the content
    is the candidate the update goes out if the flag differs. *)
Theorem set_record_updates_on_difference
    self name value proxy (st : St W) t (d rec : gmap string pyval) tl
    rec_id content w' :
  derived_type E value = Some t ->
  answers E (world st) (lookup_request E self name (VStr t)) (VDict d) w' ->
  d !! "result" = Some (VList (VDict rec :: tl)) ->
  rec !! "id" = Some (VStr rec_id) ->
  rec !! "content" = Some content ->
  py_eq_str content value = false
  \/ (exists proxied, rec !! "proxied" = Some proxied
                      /\ py_eq_bool proxied proxy = false) ->
  calls (fst (set_record E self name value proxy st))
  = calls st ++ [ApiCall (lookup_request E self name (VStr t));
                 ApiCall (update_request E self name (VStr t) value proxy rec_id)].
Proof.
  intros Hrt Ha Hres Hid Hcontent Hdiff.
  after_lookup Hrt Ha Hres st1 Hw Hc.
  rewrite (truthy_dict rec _ _ Hid).
  assert (same_record (VDict rec) value proxy = Return false) as Hsame.
  { unfold same_record, py_getitem. rewrite Hcontent.
    destruct (py_eq_str content value) eqn:Heq; [|reflexivity].
    destruct Hdiff as [Hd|(p & Hp & Hd)]; [discriminate|].
    now rewrite Hp, Hd. }
  unfold bind at 1, lift at 1. cbn [py_getitem]. rewrite Hid.
  unfold bind at 1, lift at 1. rewrite Hsame.
  unfold bind at 1, log at 1.
  unfold bind at 1, lift at 1. cbn [str_add].
  rewrite _call_api_then_log_calls. cbn [calls]. rewrite Hc.
  now rewrite <- app_assoc.
Qed.

(** X8. A record whose content is the candidate and whose [proxied] field
    equals the flag as Python compares them, so also [1] for [True] and [0]
    for [False], is left alone: the lookup is the only request. *)
Theorem set_record_python_equality
    self name value proxy (st : St W) t (d rec : gmap string pyval) tl
    rec_id content proxied w' :
  derived_type E value = Some t ->
  answers E (world st) (lookup_request E self name (VStr t)) (VDict d) w' ->
  d !! "result" = Some (VList (VDict rec :: tl)) ->
  rec !! "id" = Some rec_id ->
  rec !! "content" = Some content -> py_eq_str content value = true ->
  rec !! "proxied" = Some proxied -> py_eq_bool proxied proxy = true ->
  exists st',
    set_record E self name value proxy st = (st', Return tt)
    /\ calls st' = calls st ++ [ApiCall (lookup_request E self name (VStr t))].
Proof.
  intros Hrt Ha Hres Hid Hcontent Hc1 Hproxied Hp1.
  after_lookup Hrt Ha Hres st1 Hw Hc.
  rewrite (truthy_dict rec _ _ Hid).
  unfold bind, lift, same_record, py_getitem.
  rewrite Hid, Hcontent, Hc1, Hproxied, Hp1.
  eexists. split; [reflexivity|exact Hc].
Qed.

(** X9. When the record differs from what is wanted, in its content or,
    with the content as wanted, in its proxy flag, and its [id] is not a
    string, [set_record] logs that it updates the record, then fails with
    [TypeError] on the address of the request: nothing is written. *)
Theorem set_record_identifier_not_a_string
    self name value proxy (st : St W) t (d rec : gmap string pyval) tl
    rec_id content w' :
  derived_type E value = Some t ->
  answers E (world st) (lookup_request E self name (VStr t)) (VDict d) w' ->
  d !! "result" = Some (VList (VDict rec :: tl)) ->
  rec !! "id" = Some rec_id ->
  (forall s, rec_id <> VStr s) ->
  rec !! "content" = Some content ->
  py_eq_str content value = false
  \/ (exists proxied, rec !! "proxied" = Some proxied
                      /\ py_eq_bool proxied proxy = false) ->
  exists st',
    set_record E self name value proxy st = (st', Raise TypeError)
    /\ world st' = w'
    /\ calls st' = calls st ++ [ApiCall (lookup_request E self name (VStr t))]
    /\ last (logs st')
       = Some (mkLog INFO "Updating record: %s %s %s proxied:%s id:%s ..."
                 [AVal (VStr name); AVal (VStr t); AVal (VStr value);
                  AVal (VBool proxy); AVal rec_id]).
Proof.
  intros Hrt Ha Hres Hid Hnot Hcontent Hdiff.
  after_lookup Hrt Ha Hres st1 Hw Hc.
  rewrite (truthy_dict rec _ _ Hid).
  assert (same_record (VDict rec) value proxy = Return false) as Hsame.
  { unfold same_record, py_getitem. rewrite Hcontent.
    destruct (py_eq_str content value) eqn:Heq; [|reflexivity].
    destruct Hdiff as [Hd|(p & Hp & Hd)]; [discriminate|].
    now rewrite Hp, Hd. }
  assert (str_add (dns_records_path E self +:+ "/") rec_id = Raise TypeError)
    as Hadd.
  { destruct rec_id; try reflexivity. now destruct (Hnot s). }
  unfold bind at 1, lift at 1. cbn [py_getitem]. rewrite Hid.
  unfold bind at 1, lift at 1. rewrite Hsame.
  unfold bind at 1, log at 1.
  unfold bind at 1, lift at 1. rewrite Hadd.
  eexists. split; [reflexivity|]. split; [exact Hw|]. split; [exact Hc|].
  cbn. apply last_snoc.
Qed.

(** X16. What [set_record] writes, it leaves alone when it reads it back:
    if the lookup finds first a record made of the payload of the creation
    or of the update, with an identifier, the lookup is the only request. *)
Theorem set_record_recognises_its_own_write
    self name value proxy (st : St W) t (d : gmap string pyval) tl rec_id w' :
  derived_type E value = Some t ->
  answers E (world st) (lookup_request E self name (VStr t)) (VDict d) w' ->
  d !! "result"
  = Some (VList (VDict (<["id" := rec_id]> (payload name (VStr t) value proxy))
                 :: tl)) ->
  exists st',
    set_record E self name value proxy st = (st', Return tt)
    /\ calls st' = calls st ++ [ApiCall (lookup_request E self name (VStr t))].
Proof.
  intros Hrt Ha Hres.
  after_lookup Hrt Ha Hres st1 Hw Hc.
  rewrite (truthy_dict _ "id" rec_id) by apply lookup_insert_eq.
  unfold bind, lift, same_record, py_getitem, payload.
  rewrite lookup_insert_eq.
  rewrite !lookup_insert_ne by discriminate. rewrite lookup_insert_eq.
  cbn [py_eq_str]. rewrite String.eqb_refl.
  rewrite !lookup_insert_ne by discriminate. rewrite lookup_insert_eq.
  cbn [py_eq_bool]. rewrite Bool.eqb_reflx.
  eexists. split; [reflexivity|exact Hc].
Qed.

End Edges.

(** ** Traces of a call and of a run *)

Section RunTraces.
Context {W : Type} (E : Env W).

Lemma attempts_app (l1 l2 : list LogCall) :
  attempts (l1 ++ l2) = attempts l1 ++ attempts l2.
Proof. apply omap_app. Qed.

Lemma quiet_bind {A B} (m : M W A) (k : A -> M W B) :
  quiet m -> (forall a, quiet (k a)) -> quiet (bind m k).
Proof.
  intros Hm Hk st. destruct (Hm st) as (n1 & H1 & Ha1). unfold bind.
  destruct (m st) as [st1 [a|e]]; cbn [fst] in *.
  - destruct (Hk a st1) as (n2 & H2 & Ha2). exists (n1 ++ n2).
    rewrite H2, H1, <- app_assoc. split; [reflexivity|].
    now rewrite attempts_app, Ha1, Ha2.
  - exists n1. auto.
Qed.

Lemma quiet_try_except {A} (m : M W A) catches (h : exn -> M W A) :
  quiet m -> (forall e, quiet (h e)) -> quiet (try_except m catches h).
Proof.
  intros Hm Hh st. destruct (Hm st) as (n1 & H1 & Ha1). unfold try_except.
  destruct (m st) as [st1 [a|e]]; cbn [fst] in *.
  - exists n1. auto.
  - destruct (catches e); [|exists n1; auto].
    destruct (Hh e st1) as (n2 & H2 & Ha2). exists (n1 ++ n2).
    rewrite H2, H1, <- app_assoc. split; [reflexivity|].
    now rewrite attempts_app, Ha1, Ha2.
Qed.

Lemma quiet_silent {A} (m : M W A) :
  (forall st, logs (fst (m st)) = logs st) -> quiet m.
Proof. intros H st. exists []. rewrite H, app_nil_r. auto. Qed.


Lemma quiet_ret {A} (a : A) : quiet (ret a : M W A).
Proof. now apply quiet_silent. Qed.


Lemma quiet_log lvl fmt args :
  String.eqb fmt "%s: Getting record type ..." = false ->
  quiet (log lvl fmt args : M W unit).
Proof.
  intros Hfmt st. exists [mkLog lvl fmt args]. split; [reflexivity|].
  unfold attempts. cbn. now rewrite Hfmt.
Qed.


Lemma quiet_get url : quiet (get E url).
Proof.
  apply quiet_silent. intros st. unfold get.
  now destruct (requests_get E (world st) url).
Qed.





Lemma quiet_get_external_ips services : quiet (get_external_ips E services).
Proof.
  unfold get_external_ips.
  apply quiet_bind; [now apply quiet_log|]. intros _.
  generalize (∅ : gset string).
  induction services as [|s rest IH]; intros ips; [apply quiet_ret|].
  cbn [get_external_ips_from].
  apply quiet_bind; [|intros ips'; apply IH].
  unfold get_external_ip. apply quiet_try_except.
  - apply quiet_bind; [apply quiet_get|]. intros r.
    apply quiet_bind; [now apply quiet_log|]. intros _.
    destruct (negb _); apply quiet_ret.
  - intros e. apply quiet_bind; [now apply quiet_log|]. intros _. apply quiet_ret.
Qed.




Lemma set_record_trace self name value proxy (st : St W) :
  exists new,
    calls (fst (set_record E self name value proxy st)) = calls st ++ new
    /\ record_trace E self name value proxy new.
Proof.
  unfold set_record.
  destruct (contains_char NUL value) eqn:HN.
  { erewrite bind_raise by (apply _get_record_type_null; exact HN).
    exists []. cbn. rewrite app_nil_r. split; [reflexivity|constructor]. }
  erewrite bind_run by (apply _get_record_type_run; exact HN).
  destruct (derived_type E value) as [t|] eqn:Hrt; cbn [type_value].
  2:{ exists []. cbn. rewrite app_nil_r. split; [reflexivity|constructor]. }
  rewrite (derived_type_truthy E _ _ Hrt).
  pose proof (_get_existing_rec_calls E self name (VStr t)
                (logged st (attempt value))) as Hl.
  unfold bind at 1.
  destruct (_get_existing_rec E self name (VStr t) (logged st (attempt value)))
    as [st1 [rec|e]]; cbn [fst calls logged] in Hl.
  2:{ eexists. split; [exact Hl|now apply trace_lookup]. }
  destruct (truthy rec).
  - unfold bind at 1, lift at 1.
    destruct (py_getitem rec "id") as [rec_id|e].
    2:{ eexists. split; [exact Hl|now apply trace_lookup]. }
    unfold bind at 1, lift at 1.
    destruct (same_record rec value proxy) as [[|]|e].
    + eexists. split; [exact Hl|now apply trace_lookup].
    + unfold bind at 1, log at 1. unfold bind at 1, lift at 1.
      destruct rec_id as [| | |rid| | |];
        try (eexists; split; [exact Hl|now apply trace_lookup]).
      cbn [str_add].
      rewrite _call_api_then_log_calls. cbn [calls]. rewrite Hl.
      rewrite <- app_assoc. eexists. split; [reflexivity|].
      now apply (trace_update E self name value proxy t rid).
    + eexists. split; [exact Hl|now apply trace_lookup].
  - unfold bind at 1, log at 1.
    rewrite _call_api_then_log_calls. cbn [calls]. rewrite Hl.
    rewrite <- app_assoc. eexists. split; [reflexivity|].
    now apply trace_create.
Qed.

Lemma record_trace_calls cf name value proxy new :
  record_trace E cf name value proxy new ->
  Forall (record_call E cf name proxy value) new.
Proof.
  intros [|t Ht|t Ht|t rid Ht]; repeat constructor;
    exists t; (split; [exact Ht|]); eauto.
Qed.

(** For a valid candidate the lookup is sent, whatever happens next. *)
Lemma set_record_looks_up self name value proxy (st : St W) t :
  derived_type E value = Some t ->
  exists more,
    calls (fst (set_record E self name value proxy st))
    = calls st ++ ApiCall (lookup_request E self name (VStr t)) :: more.
Proof.
  intros Hrt. unfold set_record.
  erewrite bind_run
    by (apply _get_record_type_run; exact (derived_type_no_null E _ _ Hrt)).
  rewrite Hrt. cbn [type_value]. rewrite (derived_type_truthy E _ _ Hrt).
  pose proof (_get_existing_rec_calls E self name (VStr t)
                (logged st (attempt value))) as Hl.
  unfold bind at 1.
  destruct (_get_existing_rec E self name (VStr t) (logged st (attempt value)))
    as [st1 [rec|e]]; cbn [fst calls logged] in Hl.
  2:{ exists []. exact Hl. }
  destruct (truthy rec).
  - unfold bind at 1, lift at 1.
    destruct (py_getitem rec "id") as [rec_id|e]; [|exists []; exact Hl].
    unfold bind at 1, lift at 1.
    destruct (same_record rec value proxy) as [[|]|e];
      [exists []; exact Hl| |exists []; exact Hl].
    unfold bind at 1, log at 1. unfold bind at 1, lift at 1.
    destruct (str_add _ rec_id) as [path|e]; [|exists []; exact Hl].
    rewrite _call_api_then_log_calls. cbn [calls]. rewrite Hl.
    rewrite <- app_assoc. eexists. reflexivity.
  - unfold bind at 1, log at 1.
    rewrite _call_api_then_log_calls. cbn [calls]. rewrite Hl.
    rewrite <- app_assoc. eexists. reflexivity.
Qed.

(** X10. Whatever the provider answers, the requests of one [set_record]
    are the lookup for the derived type of the candidate and then at most
    one write, the creation or an update; and every write carries the name,
    the derived type, the candidate as content and the proxy flag.  So the
    type of a record written always fits the family of its address. *)
Theorem set_record_writes_what_it_was_given self name value proxy (st : St W) :
  exists new,
    calls (fst (set_record E self name value proxy st)) = calls st ++ new
    /\ record_trace E self name value proxy new
    /\ forall r,
         ApiCall r ∈ writes new ->
         exists t,
           derived_type E value = Some t
           /\ field r "name" = Some (VStr name)
           /\ field r "type" = Some (VStr t)
           /\ field r "content" = Some (VStr value)
           /\ field r "proxied" = Some (VBool proxy).
Proof.
  destruct (set_record_trace self name value proxy st) as (new & Hnew & Htrace).
  exists new. split; [exact Hnew|]. split; [exact Htrace|].
  intros r Hin.
  destruct Htrace as [|t Ht|t Ht|t rid Ht]; cbn in Hin.
  - now apply elem_of_nil in Hin.
  - now apply elem_of_nil in Hin.
  - apply list_elem_of_singleton in Hin. injection Hin as ->.
    exists t. repeat split; [exact Ht].
  - apply list_elem_of_singleton in Hin. injection Hin as ->.
    exists t. repeat split; [exact Ht].
Qed.

End RunTraces.

(** ** The whole run *)

Section WholeRun.
Context {W : Type} (E : Env W).




Lemma set_iter_elem (s : gset string) (x : string) :
  set_iter_ok E -> x ∈ set_iter E s <-> x ∈ s.
Proof. intros Hok. now rewrite (Hok s), elem_of_elements. Qed.


Lemma set_iter_empty : set_iter_ok E -> set_iter E ∅ = [].
Proof.
  intros Hok. apply Permutation_nil_r. rewrite (Hok ∅).
  now rewrite elements_empty.
Qed.

Lemma set_records_trace cf name proxy l (st : St W) :
  exists new,
    calls (fst (set_records E cf name proxy l st)) = calls st ++ new
    /\ Forall (fun c => exists value,
                 value ∈ l /\ record_call E cf name proxy value c) new.
Proof.
  revert st. induction l as [|ip rest IH]; intros st.
  - exists []. cbn. rewrite app_nil_r. split; [reflexivity|constructor].
  - cbn [set_records]. unfold bind.
    destruct (set_record_trace E cf name ip proxy st) as (new & Hnew & Htr).
    apply record_trace_calls in Htr.
    assert (Forall (fun c => exists value,
                      value ∈ ip :: rest /\ record_call E cf name proxy value c) new)
      as Hhead.
    { eapply Forall_impl; [exact Htr|]. intros c Hc. exists ip.
      split; [apply list_elem_of_here|exact Hc]. }
    destruct (set_record E cf name ip proxy st) as [st1 [[]|e]]; cbn [fst] in Hnew.
    + destruct (IH st1) as (new' & Hnew' & Htr').
      exists (new ++ new'). rewrite Hnew', Hnew, app_assoc.
      split; [reflexivity|]. apply Forall_app. split; [exact Hhead|].
      eapply Forall_impl; [exact Htr'|]. intros c (value & Hin & Hc).
      exists value. split; [now apply list_elem_of_further|exact Hc].
    + exists new. split; [exact Hnew|exact Hhead].
Qed.


(** The requests of the loop: each concerns one of the addresses, and when
    the loop comes to its end every valid address was looked up. *)
Lemma set_records_lookups cf name proxy l (st : St W) :
  exists new,
    calls (fst (set_records E cf name proxy l st)) = calls st ++ new
    /\ Forall (fun c => exists value,
                 value ∈ l /\ record_call E cf name proxy value c) new
    /\ (snd (set_records E cf name proxy l st) = Return tt ->
        forall ip t,
          ip ∈ l -> derived_type E ip = Some t ->
          ApiCall (lookup_request E cf name (VStr t)) ∈ new).
Proof.
  revert st. induction l as [|ip0 rest IH]; intros st.
  - exists []. cbn. rewrite app_nil_r. split; [reflexivity|].
    split; [constructor|]. intros _ ip t Hin. now apply elem_of_nil in Hin.
  - cbn [set_records]. unfold bind.
    destruct (set_record_trace E cf name ip0 proxy st) as (new & Hnew & Htr).
    apply record_trace_calls in Htr.
    assert (Forall (fun c => exists value,
                      value ∈ ip0 :: rest /\ record_call E cf name proxy value c) new)
      as Hhead.
    { eapply Forall_impl; [exact Htr|]. intros c Hc. exists ip0.
      split; [apply list_elem_of_here|exact Hc]. }
    assert (forall t, derived_type E ip0 = Some t ->
                      ApiCall (lookup_request E cf name (VStr t)) ∈ new) as Hfirst.
    { intros t Ht.
      destruct (set_record_looks_up E cf name ip0 proxy st t Ht) as (more & Hm).
      rewrite Hnew in Hm. apply app_inv_head in Hm. rewrite Hm.
      apply list_elem_of_here. }
    destruct (set_record E cf name ip0 proxy st) as [st1 [[]|e]]; cbn [fst] in Hnew.
    + destruct (IH st1) as (new' & Hnew' & Htr' & Hall).
      exists (new ++ new'). rewrite Hnew', Hnew, app_assoc.
      split; [reflexivity|]. split.
      * apply Forall_app. split; [exact Hhead|].
        eapply Forall_impl; [exact Htr'|]. intros c (value & Hin & Hc).
        exists value. split; [now apply list_elem_of_further|exact Hc].
      * intros Hret ip t Hin Ht. apply elem_of_app.
        apply elem_of_cons in Hin as [->|Hin].
        -- left. now apply Hfirst.
        -- right. now apply (Hall Hret ip t).
    + exists new. split; [exact Hnew|]. split; [exact Hhead|]. discriminate.
Qed.

(** X11. In a run with the credentials set, when the provider answers the
    zone lookup with a zone that has an [id], the requests of the run are
    the zone lookup, then one [GET] for every echo service, in order, and
    then requests about records.  Each of those is the lookup, the creation
    or an update for an address that an echo service reported, with the
    type derived from it; it goes to the zone whose [id] the zone lookup
    returned and carries the credentials.  And when the run returns, every
    valid address that an echo service reported was looked up. *)
Theorem main_requests_concern_resolved_addresses
    name proxy services (st : St W) email token
    (d z : gmap string pyval) tl zid w1 :
  set_iter_ok E ->
  contains_char DOT name = true ->
  getenv E "CF_EMAIL" = Some email -> email <> "" ->
  getenv E "CF_TOKEN" = Some token -> token <> "" ->
  answers E (world st) (zone_request (client email token) (domain_of name))
    (VDict d) w1 ->
  d !! "result" = Some (VList (VDict z :: tl)) ->
  z !! "id" = Some zid ->
  let cf := mkCloudflare (client email token) zid in
  let ips := collected (fst (fetch_all E services w1)) in
  exists recs,
    calls (fst (main E name proxy services st))
    = calls st
      ++ ApiCall (zone_request (client email token) (domain_of name))
      :: map GetCall services ++ recs
    /\ Forall (fun c => exists value,
                 value ∈ ips /\ record_call E cf name proxy value c) recs
    /\ (snd (main E name proxy services st) = Return tt ->
        forall ip t,
          ip ∈ ips -> derived_type E ip = Some t ->
          ApiCall (lookup_request E cf name (VStr t)) ∈ recs).
Proof.
  intros Hok Hdot He Hne Ht Hnt Ha Hres Hid cf ips.
  destruct (_get_zone_id_answers E (client email token) (domain_of name) st
              (VDict d) w1 Ha) as (st1 & Hrun & Hw & Hc).
  assert (__init__ E (domain_of name) st = (st1, Return cf)) as Hinit.
  { rewrite (init_with_credentials E (domain_of name) st email token He Hne Ht Hnt).
    rewrite (bind_run _ _ st st1 zid); [reflexivity|].
    rewrite Hrun. f_equal.
    unfold has_result, py_contains, py_getitem. rewrite Hres. cbn.
    now rewrite Hid. }
  pose proof (get_external_ips_run E services st1) as Hg.
  rewrite Hw in Hg. fold ips in Hg.
  match type of Hg with _ = (?s, _) => set (st2 := s) in Hg end.
  assert (main E name proxy services st
          = set_records E cf name proxy (set_iter E ips) st2) as ->.
  { unfold main. rewrite Hdot. cbv zeta.
    erewrite bind_run by exact Hinit. erewrite bind_run by exact Hg.
    reflexivity. }
  destruct (set_records_lookups cf name proxy (set_iter E ips) st2)
    as (recs & Hrecs & Htr & Hall).
  exists recs. split; [|split].
  - rewrite Hrecs. subst st2. cbn [calls]. rewrite Hc, <- !app_assoc.
    reflexivity.
  - eapply Forall_impl; [exact Htr|]. intros c (value & Hin & Hcall).
    exists value. split; [|exact Hcall]. now apply (set_iter_elem _ _ Hok) in Hin.
  - intros Hret ip t Hin Hrt. apply (Hall Hret ip t); [|exact Hrt].
    now apply set_iter_elem.
Qed.


(** X13. When no echo service yields an address, be it that they all fail
    or answer with blank bodies, the run returns normally after the zone
    lookup and the echo requests: nothing is looked up or written. *)
Theorem main_with_nothing_to_reconcile
    name proxy services (st : St W) email token
    (d z : gmap string pyval) tl zid w1 :
  set_iter_ok E ->
  contains_char DOT name = true ->
  getenv E "CF_EMAIL" = Some email -> email <> "" ->
  getenv E "CF_TOKEN" = Some token -> token <> "" ->
  answers E (world st) (zone_request (client email token) (domain_of name))
    (VDict d) w1 ->
  d !! "result" = Some (VList (VDict z :: tl)) ->
  z !! "id" = Some zid ->
  collected (fst (fetch_all E services w1)) = ∅ ->
  exists st',
    main E name proxy services st = (st', Return tt)
    /\ calls st'
       = calls st
         ++ ApiCall (zone_request (client email token) (domain_of name))
         :: map GetCall services.
Proof.
  intros Hok Hdot He Hne Ht Hnt Ha Hres Hid Hempty.
  destruct (_get_zone_id_answers E (client email token) (domain_of name) st
              (VDict d) w1 Ha) as (st1 & Hrun & Hw & Hc).
  assert (__init__ E (domain_of name) st
          = (st1, Return (mkCloudflare (client email token) zid))) as Hinit.
  { rewrite (init_with_credentials E (domain_of name) st email token He Hne Ht Hnt).
    rewrite (bind_run _ _ st st1 zid); [reflexivity|].
    rewrite Hrun. f_equal.
    unfold has_result, py_contains, py_getitem. rewrite Hres. cbn.
    now rewrite Hid. }
  unfold main. rewrite Hdot. cbv zeta.
  erewrite bind_run by exact Hinit.
  unfold bind. rewrite get_external_ips_run. rewrite Hw, Hempty.
  rewrite (set_iter_empty Hok). cbn [set_records]. unfold ret.
  eexists. split; [reflexivity|]. cbn [calls]. rewrite Hc.
  now rewrite <- app_assoc.
Qed.

(** X14. A zone that cannot be resolved ends the run before any echo
    service is asked: with [ValueError] "<domain>: No such domain" when the
    provider knows no such zone, with [HTTPError] when it refuses the
    lookup.  The zone lookup is the only call made. *)
Theorem main_without_zone
    name proxy services (st : St W) email token :
  contains_char DOT name = true ->
  getenv E "CF_EMAIL" = Some email -> email <> "" ->
  getenv E "CF_TOKEN" = Some token -> token <> "" ->
  let zone := zone_request (client email token) (domain_of name) in
  (forall (d : gmap string pyval) w1,
     answers E (world st) zone (VDict d) w1 -> no_match d ->
     exists st',
       main E name proxy services st
       = (st', Raise (ValueError (domain_of name +:+ ": No such domain")))
       /\ calls st' = calls st ++ [ApiCall zone])
  /\
  (forall status body w1,
     refuses E (world st) zone status body w1 ->
     exists st',
       main E name proxy services st = (st', Raise (HTTPError status body))
       /\ calls st' = calls st ++ [ApiCall zone]).
Proof.
  intros Hdot He Hne Ht Hnt zone. split.
  - intros d w1 Ha Hno.
    destruct (_get_zone_id_answers E (client email token) (domain_of name) st
                (VDict d) w1 Ha) as (st1 & Hrun & Hw & Hc).
    exists st1. split; [|exact Hc].
    unfold main. rewrite Hdot. cbv zeta. apply bind_raise.
    rewrite (init_with_credentials E (domain_of name) st email token He Hne Ht Hnt).
    apply bind_raise. rewrite Hrun. f_equal.
    unfold has_result, py_contains, py_getitem.
    destruct Hno as [H|[H|H]]; rewrite H; reflexivity.
  - intros status body w1 Hr.
    eexists. split.
    + unfold main. rewrite Hdot. cbv zeta. apply bind_raise.
      rewrite (init_with_credentials E (domain_of name) st email token He Hne Ht Hnt).
      apply bind_raise. unfold _get_zone_id.
      unfold bind at 1, log at 1. apply bind_raise.
      apply (_call_api_refuses E (client email token) "GET" "/zones"). exact Hr.
    + reflexivity.
Qed.

Lemma fetch_all_length services (w : W) :
  length (fst (fetch_all E services w)) = length services.
Proof.
  revert w. induction services as [|s rest IH]; intros w; [reflexivity|].
  cbn. destruct (requests_get E w s) as [w1 o].
  specialize (IH w1). destruct (fetch_all E rest w1). cbn in *. now rewrite IH.
Qed.

Lemma size_collected (outs : list (outcome Response)) :
  (size (collected outs) <= length outs)%nat.
Proof.
  induction outs as [|o os IH].
  - unfold collected. cbn. rewrite size_empty. lia.
  - unfold collected in *.
    change (omap address_of (o :: os))
      with (match address_of o with
            | Some y => y :: omap address_of os
            | None => omap address_of os
            end).
    destruct (address_of o) as [ip|]; cbn [length]; [|lia].
    cbn [list_to_set]. rewrite size_union_alt, size_singleton.
    assert (size (list_to_set (omap address_of os) ∖ {[ip]} : gset string)
            <= size (list_to_set (omap address_of os) : gset string))%nat
      by (apply subseteq_size; set_solver).
    lia.
Qed.

(** X15. [get_external_ips] returns at most one address for each service,
    and every address it returns is not empty and has no whitespace at
    either end. *)
Theorem get_external_ips_yields_trimmed_addresses services (st : St W) :
  exists st' ips,
    get_external_ips E services st = (st', Return ips)
    /\ (size ips <= length services)%nat
    /\ forall ip, ip ∈ ips -> ip <> "" /\ trimmed ip /\ strip ip = ip.
Proof.
  eexists _, _. split; [apply get_external_ips_run|]. split.
  - rewrite <- (fetch_all_length services (world st)). apply size_collected.
  - intros ip Hin. apply elem_of_collected in Hin as (i & r & _ & <- & Hne).
    split; [exact Hne|]. split; [apply strip_trimmed|].
    apply trimmed_strip, strip_trimmed.
Qed.

End WholeRun.

(** ** Runs that change nothing *)

Section Idempotence.
Context {W : Type} (E : Env W).




End Idempotence.

(** ** Concrete runs *)

Section Examples.
Import Sample Scenario.

Example classify_ipv4 : derived_type E0 "192.0.2.1" = Some "A".
Proof. reflexivity. Qed.

Example classify_ipv6 : derived_type E0 "2001:db8::1" = Some "AAAA".
Proof. reflexivity. Qed.

Example classify_text : derived_type E0 "not-an-ip" = None.
Proof. reflexivity. Qed.

Example classify_empty : derived_type E0 "" = None.
Proof. reflexivity. Qed.

Example domain_of_co_uk : domain_of "sub.example.co.uk" = "co.uk".
Proof. reflexivity. Qed.

(** A body with a null character ends the whole run with [ValueError],
    after the zone lookup and the echo request, with no record looked up. *)
Example null_body_ends_run :
  snd (main E0 hostname false [ipify] (start garbled))
  = Raise (ValueError "embedded null character")
  /\ length (calls (fst (main E0 hostname false [ipify] (start garbled)))) = 2%nat.
Proof. vm_compute. split; reflexivity. Qed.

Example init_fresh :
  snd (__init__ E0 "example.com" (start fresh)) = Return cf0.
Proof. vm_compute. reflexivity. Qed.

(** The first run creates the two records; a second run from the world
    the first one left writes nothing. *)
Example second_run_writes_nothing :
  let first := main E0 hostname false [ipify; icanhazip] (start fresh) in
  let second := main E0 hostname false [ipify; icanhazip] (start (world (fst first))) in
  snd first = Return tt
  /\ length (writes (calls (fst first))) = 2%nat
  /\ snd second = Return tt
  /\ writes (calls (fst second)) = []
  /\ world (fst second) = world (fst first).
Proof. vm_compute. repeat split. Qed.

End Examples.

(** ** The theorems at concrete inputs *)

Section Witnesses.
Import Sample Scenario.

(** On the settled zone the address is unchanged: one lookup, no write. *)
Lemma set_record_unchanged_no_write_witness :
  derived_type E0 v4 = Some "A"
  /\ exists st',
       set_record E0 cf0 hostname v4 false (start settled) = (st', Return tt)
       /\ world st' = settled
       /\ calls st' = calls (start settled)
                      ++ [ApiCall (lookup_request E0 cf0 hostname (VStr "A"))]
       /\ writes (calls st') = writes (calls (start settled))
       /\ last (logs st')
          = Some (unchanged_log hostname (VStr "A") v4 false (VStr "r0")).
Proof.
  split; [reflexivity|].
  eapply (set_record_unchanged_no_write E0 cf0 hostname v4 false
            (start settled) "A" _ (a_record v4 false) [] (VStr "r0") settled).
  - reflexivity.
  - eexists. split; [reflexivity|]. split; reflexivity.
  - reflexivity.
  - reflexivity.
  - reflexivity.
  - reflexivity.
Defined.



(** On the fresh zone the record is created; on the stale zone the record
    [r0] is updated. *)
Lemma set_record_create_or_update_witness :
  derived_type E0 v4 = Some "A"
  /\ calls (fst (set_record E0 cf0 hostname v4 true (start fresh)))
     = [ApiCall (lookup_request E0 cf0 hostname (VStr "A"));
        ApiCall (create_request E0 cf0 hostname (VStr "A") v4 true)]
  /\ field (create_request E0 cf0 hostname (VStr "A") v4 true) "id" = None
  /\ calls (fst (set_record E0 cf0 hostname v4 true (start stale)))
     = [ApiCall (lookup_request E0 cf0 hostname (VStr "A"));
        ApiCall (update_request E0 cf0 hostname (VStr "A") v4 true "r0")]
  /\ field (update_request E0 cf0 hostname (VStr "A") v4 true "r0") "id"
     = Some (VStr "r0").
Proof.
  split; [reflexivity|].
  assert (exists d, answers E0 fresh (lookup_request E0 cf0 hostname (VStr "A"))
                      (VDict d) fresh /\ no_match d) as (d0 & Ha0 & Hno).
  { eexists. split.
    - eexists. split; [reflexivity|]. split; reflexivity.
    - right; right. reflexivity. }
  assert (exists d, answers E0 stale (lookup_request E0 cf0 hostname (VStr "A"))
                      (VDict d) stale
                    /\ d !! "result"
                       = Some (VList [VDict (a_record "198.51.100.4" false)]))
    as (d1 & Ha1 & Hres).
  { eexists. split.
    - eexists. split; [reflexivity|]. split; reflexivity.
    - reflexivity. }
  destruct (set_record_create_or_update E0 cf0 hostname v4 true (start fresh)
              "A" d0 fresh eq_refl Ha0) as [Hcreate _].
  destruct (set_record_create_or_update E0 cf0 hostname v4 true (start stale)
              "A" d1 stale eq_refl Ha1) as [_ Hupdate].
  destruct (Hcreate Hno) as (Hc & _ & Hid & _).
  assert ("198.51.100.4" <> v4 \/ false <> true) as Hd by (right; discriminate).
  destruct (Hupdate (a_record "198.51.100.4" false) [] "r0" "198.51.100.4" false
              Hres eq_refl eq_refl eq_refl Hd)
    as (Hu & _ & _ & Hid' & _).
  split; [exact Hc|].
  split; [exact Hid|].
  split; [exact Hu|].
  exact Hid'.
Defined.

(** A string that is no address is rejected without any request. *)
Lemma set_record_rejects_invalid_witness :
  not_an_address E0 AF_INET "not-an-ip"
  /\ not_an_address E0 AF_INET6 "not-an-ip"
  /\ exists st',
       set_record E0 cf0 hostname "not-an-ip" false (start fresh) = (st', Return tt)
       /\ last (logs st') = Some (rejection_log "not-an-ip")
       /\ calls st' = []
       /\ world st' = fresh.
Proof.
  assert (not_an_address E0 AF_INET "not-an-ip") as H4 by (eexists; reflexivity).
  assert (not_an_address E0 AF_INET6 "not-an-ip") as H6 by (eexists; reflexivity).
  split; [exact H4|]. split; [exact H6|].
  exact (proj1 (set_record_rejects_invalid E0 cf0 hostname "not-an-ip" false
                  (start fresh)) H4 H6).
Defined.

(** The lookup on the settled zone returns its record; on the fresh zone
    it returns [None]. *)
Lemma get_existing_rec_first_or_absent_witness :
  snd (_get_existing_rec E0 cf0 hostname (VStr "A") (start settled))
  = Return (VDict (a_record v4 false))
  /\ snd (_get_existing_rec E0 cf0 hostname (VStr "A") (start fresh))
     = Return VNone.
Proof.
  assert (answers E0 (world (start settled))
            (lookup_request E0 cf0 hostname (VStr "A"))
            (VDict {[ "result" := VList [VDict (a_record v4 false)] ]}) settled)
    as Hs.
  { eexists. split; [reflexivity|]. split; reflexivity. }
  assert (answers E0 (world (start fresh))
            (lookup_request E0 cf0 hostname (VStr "A"))
            (VDict {[ "result" := VList [] ]}) fresh)
    as Hf.
  { eexists. split; [reflexivity|]. split; reflexivity. }
  apply (get_existing_rec_first_or_absent E0) in Hs as [_ Hs].
  apply (get_existing_rec_first_or_absent E0) in Hf as [_ Hf].
  split; [exact Hs|exact Hf].
Defined.

(** The provider of the scenario always answers: it raises nothing. *)
Lemma provider_transport_ok vars order : transport_ok (env vars order).
Proof.
  intros w r status body. cbn. unfold provider, answer, refuse.
  repeat match goal with
         | |- context [if ?c then _ else _] => destruct c
         | |- context [match ?x with _ => _ end] => destruct x
         end; discriminate.
Qed.

(** On the frozen zone the creation for the first address is refused with
    status 403: the failure is logged and the loop ends there. *)
Lemma set_records_stops_at_provider_error_witness :
  set_record E0 cf0 hostname v4 false (start frozen)
  = (fst (set_record E0 cf0 hostname v4 false (start frozen)),
     Raise (HTTPError 403 "forbidden"))
  /\ last (logs (fst (set_record E0 cf0 hostname v4 false (start frozen))))
     = Some (failure_log "forbidden")
  /\ set_records E0 cf0 hostname false ([] ++ v4 :: [v6]) (start frozen)
     = (fst (set_record E0 cf0 hostname v4 false (start frozen)),
        Raise (HTTPError 403 "forbidden")).
Proof.
  assert (set_record E0 cf0 hostname v4 false (start frozen)
          = (fst (set_record E0 cf0 hostname v4 false (start frozen)),
             Raise (HTTPError 403 "forbidden"))) as Hip
    by (vm_compute; reflexivity).
  split; [exact Hip|].
  exact (set_records_stops_at_provider_error E0 cf0 hostname false [] v4 [v6]
           (start frozen) (start frozen) _ 403 "forbidden"
           (provider_transport_ok credentials elements) eq_refl Hip).
Defined.

(** C2 fails on the code.  On the frozen zone both echo services answer,
    so two addresses are resolved; the creation for the first of them is
    refused, [__main__] ends with that [HTTPError], and the reconciliation
    of the other address is never attempted.  This holds whichever of the
    two comes first in the iteration. *)
Lemma main_stops_at_first_failure :
  snd (get_external_ips E0 [ipify; icanhazip] (start frozen))
  = Return ({[ v4 ]} ∪ {[ v6 ]})
  /\ set_iter E0 ({[ v4 ]} ∪ {[ v6 ]}) = [v4; v6]
  /\ snd (main E0 hostname false [ipify; icanhazip] (start frozen))
     = Raise (HTTPError 403 "forbidden")
  /\ attempts (logs (fst (main E0 hostname false [ipify; icanhazip] (start frozen))))
     = [v4]
  /\ set_iter E1 ({[ v4 ]} ∪ {[ v6 ]}) = [v6; v4]
  /\ snd (main E1 hostname false [ipify; icanhazip] (start frozen))
     = Raise (HTTPError 403 "forbidden")
  /\ attempts (logs (fst (main E1 hostname false [ipify; icanhazip] (start frozen))))
     = [v6].
Proof. vm_compute. repeat split. Qed.



Example duplicates_collapse :
  snd (get_external_ips E0 [ipify; ipify] (start fresh)) = Return {[ v4 ]}.
Proof. vm_compute. reflexivity. Qed.

Example all_endpoints_fail :
  snd (get_external_ips E0 ["https://down.example"; "https://gone.example"]
         (start fresh)) = Return ∅.
Proof. vm_compute. reflexivity. Qed.


(** A process without credentials stops before any call; with them the
    only call of the construction is the zone lookup. *)
Lemma init_credentials_before_network_witness :
  __init__ (env (fun _ => None) elements) "example.com" (start fresh)
  = (start fresh,
     Raise (EnvironmentError "CF_EMAIL and CF_TOKEN envvars must be set."))
  /\ calls (fst (__init__ E0 "example.com" (start fresh)))
     = [ApiCall (zone_request (client "me@example.com" "s3cr3t") "example.com")].
Proof.
  split.
  - exact (proj1 (init_credentials_before_network
                    (env (fun _ => None) elements) "example.com" (start fresh))
             (or_introl eq_refl)).
  - assert ("me@example.com" <> "") as He by discriminate.
    assert ("s3cr3t" <> "") as Ht by discriminate.
    exact (proj1 (proj2 (init_credentials_before_network E0 "example.com"
                           (start fresh)))
             "me@example.com" "s3cr3t" eq_refl He eq_refl Ht).
Defined.

(** The zone asked for [sub.example.co.uk] is [co.uk]; [localhost] is
    turned down before anything is sent. *)
Lemma main_registrable_domain_witness :
  contains_char DOT "sub.example.co.uk" = true
  /\ (exists rest,
        calls (fst (main E0 "sub.example.co.uk" false [ipify] (start fresh)))
        = ApiCall (zone_request (client "me@example.com" "s3cr3t") "co.uk") :: rest)
  /\ main E0 "localhost" false [ipify] (start fresh)
     = (start fresh, Raise (ValueError "localhost is not a valid hostname")).
Proof.
  split; [reflexivity|]. split.
  - destruct (proj1 (main_registrable_domain E0 "sub.example.co.uk" false
                       [ipify] (start fresh)) eq_refl)
      as (labels & a & b & Hsplit & _ & _ & _ & Hwire).
    change (split DOT "sub.example.co.uk")
      with (["sub"; "example"] ++ ["co"; "uk"]) in Hsplit.
    apply app_inj_2 in Hsplit as [_ Hab]; [|reflexivity].
    injection Hab as <- <-.
    assert ("me@example.com" <> "") as He by discriminate.
    assert ("s3cr3t" <> "") as Ht by discriminate.
    exact (Hwire "me@example.com" "s3cr3t" eq_refl He eq_refl Ht).
  - exact (proj2 (main_registrable_domain E0 "localhost" false [ipify]
                    (start fresh)) eq_refl).
Defined.

End Witnesses.

(** ** The further theorems at concrete inputs *)

Section FurtherWitnesses.
Import Sample Scenario.

Lemma scenario_set_iter_ok : set_iter_ok E0.
Proof. intros s. reflexivity. Qed.

(** Splitting and joining the labels of a hostname. *)
Lemma split_join_round_trip_witness :
  split DOT (join "." ["sub"; "example"; "co"; "uk"])
  = ["sub"; "example"; "co"; "uk"]
  /\ length (split DOT "sub.example.co.uk") = 4%nat.
Proof.
  split.
  - apply (proj1 (split_join_round_trip ["sub"; "example"; "co"; "uk"] ""));
      [discriminate|repeat constructor].
  - exact (proj2 (split_join_round_trip [] "sub.example.co.uk")).
Defined.

Example strip_line : strip (String LF "  " +:+ v4 +:+ String LF "") = v4.
Proof. reflexivity. Qed.

(** The zone lookup of the scenario returns the identifier [z1]; for a
    domain the provider does not know it raises. *)
Lemma get_zone_id_outcomes_witness :
  snd (_get_zone_id E0 (client "me@example.com" "s3cr3t") "example.com" (start fresh))
  = Return (VStr "z1")
  /\ snd (_get_zone_id E0 (client "me@example.com" "s3cr3t") "example.org" (start fresh))
     = Raise (ValueError "example.org: No such domain").
Proof.
  assert (answers E0 (world (start fresh))
            (zone_request (client "me@example.com" "s3cr3t") "example.com")
            (VDict {[ "result" := VList [VDict {[ "id" := VStr "z1" ]}] ]}) fresh)
    as Hcom.
  { eexists. split; [reflexivity|]. split; reflexivity. }
  assert (answers E0 (world (start fresh))
            (zone_request (client "me@example.com" "s3cr3t") "example.org")
            (VDict {[ "result" := VList [] ]}) fresh)
    as Horg.
  { eexists. split; [reflexivity|]. split; reflexivity. }
  apply (get_zone_id_outcomes E0) in Hcom.
  apply (get_zone_id_outcomes E0) in Horg.
  split; [exact Hcom|exact Horg].
Defined.

(** An address in IPv4 notation is typed [A]. *)
Lemma get_record_type_prefers_ipv4_witness :
  _get_record_type E0 v4 (start fresh)
  = (logged (start fresh) (attempt v4), Return (VStr "A")).
Proof. exact (get_record_type_prefers_ipv4 E0 v4 (start fresh) eq_refl). Defined.

(** A refused lookup: [set_record] raises and writes nothing. *)
Lemma set_record_needs_the_lookup_witness :
  exists st' e,
    set_record Script.env cf0 hostname v4 false (Script.start [refuse 500 "oops"])
    = (st', Raise e)
    /\ calls st' = [ApiCall (lookup_request Script.env cf0 hostname (VStr "A"))].
Proof.
  apply (set_record_needs_the_lookup Script.env cf0 hostname v4 false
           (Script.start [refuse 500 "oops"]) "A" eq_refl).
  intros d w' (r & Hr & Hok & _). cbn in Hr. injection Hr as _ <-. discriminate.
Defined.

(** An empty object as first result: the record is created. *)
Lemma set_record_creates_on_falsy_record_witness :
  calls (fst (set_record Script.env cf0 hostname v4 false
                (Script.start [Script.found (VDict ∅)])))
  = [ApiCall (lookup_request Script.env cf0 hostname (VStr "A"));
     ApiCall (create_request Script.env cf0 hostname (VStr "A") v4 false)].
Proof.
  assert (answers Script.env (world (Script.start [Script.found (VDict ∅)]))
            (lookup_request Script.env cf0 hostname (VStr "A"))
            (VDict {[ "result" := VList [VDict ∅] ]}) []) as Ha.
  { eexists. split; [reflexivity|]. split; reflexivity. }
  exact (set_record_creates_on_falsy_record Script.env cf0 hostname v4 false
           (Script.start [Script.found (VDict ∅)]) "A" _ (VDict ∅) [] []
           eq_refl Ha eq_refl eq_refl).
Defined.

(** A record without [id]: [KeyError], nothing written. *)
Lemma set_record_incomplete_record_witness :
  exists st',
    calls st' = [ApiCall (lookup_request Script.env cf0 hostname (VStr "A"))]
    /\ set_record Script.env cf0 hostname v4 false
         (Script.start [Script.found (VDict {[ "content" := VStr v4 ]})])
       = (st', Raise (KeyError (VStr "id"))).
Proof.
  assert (answers Script.env
            (world (Script.start [Script.found (VDict {[ "content" := VStr v4 ]})]))
            (lookup_request Script.env cf0 hostname (VStr "A"))
            (VDict {[ "result" := VList [VDict {[ "content" := VStr v4 ]}] ]}) [])
    as Ha.
  { eexists. split; [reflexivity|]. split; reflexivity. }
  assert (({[ "content" := VStr v4 ]} : gmap string pyval) <> ∅) as Hne.
  { intros H. apply (f_equal (fun m => m !! "content")) in H. discriminate. }
  destruct (set_record_incomplete_record Script.env cf0 hostname v4 false
              (Script.start [Script.found (VDict {[ "content" := VStr v4 ]})])
              "A" _ {[ "content" := VStr v4 ]} [] [] eq_refl Ha eq_refl Hne)
    as (st' & Hc & Hrun).
  exists st'. split; [exact Hc|exact Hrun].
Defined.

(** A record with another content and no [proxied] field is updated. *)
Lemma set_record_updates_on_difference_witness :
  calls (fst (set_record Script.env cf0 hostname v4 false
                (Script.start
                   [Script.found (VDict {[ "id" := VStr "r9";
                                           "content" := VStr "198.51.100.4" ]})])))
  = [ApiCall (lookup_request Script.env cf0 hostname (VStr "A"));
     ApiCall (update_request Script.env cf0 hostname (VStr "A") v4 false "r9")].
Proof.
  assert (answers Script.env
            (world (Script.start
                      [Script.found (VDict {[ "id" := VStr "r9";
                                              "content" := VStr "198.51.100.4" ]})]))
            (lookup_request Script.env cf0 hostname (VStr "A"))
            (VDict {[ "result" := VList [VDict {[ "id" := VStr "r9";
                                                  "content" := VStr "198.51.100.4" ]}] ]})
            []) as Ha.
  { eexists. split; [reflexivity|]. split; reflexivity. }
  assert (py_eq_str (VStr "198.51.100.4") v4 = false) as Hdiff by reflexivity.
  exact (set_record_updates_on_difference Script.env cf0 hostname v4 false _
           "A" _ {[ "id" := VStr "r9"; "content" := VStr "198.51.100.4" ]} []
           "r9" (VStr "198.51.100.4") [] eq_refl Ha eq_refl eq_refl eq_refl
           (or_introl Hdiff)).
Defined.

(** A record whose [proxied] field is [1] equals the flag [True]. *)
Lemma set_record_python_equality_witness :
  exists st',
    set_record Script.env cf0 hostname v4 true
      (Script.start
         [Script.found (VDict {[ "id" := VStr "r9"; "content" := VStr v4;
                                 "proxied" := VInt 1 ]})])
    = (st', Return tt)
    /\ calls st' = [ApiCall (lookup_request Script.env cf0 hostname (VStr "A"))].
Proof.
  assert (answers Script.env
            (world (Script.start
                      [Script.found (VDict {[ "id" := VStr "r9"; "content" := VStr v4;
                                              "proxied" := VInt 1 ]})]))
            (lookup_request Script.env cf0 hostname (VStr "A"))
            (VDict {[ "result" := VList [VDict {[ "id" := VStr "r9";
                                                  "content" := VStr v4;
                                                  "proxied" := VInt 1 ]}] ]})
            []) as Ha.
  { eexists. split; [reflexivity|]. split; reflexivity. }
  exact (set_record_python_equality Script.env cf0 hostname v4 true _
           "A" _ {[ "id" := VStr "r9"; "content" := VStr v4; "proxied" := VInt 1 ]}
           [] (VStr "r9") (VStr v4) (VInt 1) [] eq_refl Ha eq_refl eq_refl
           eq_refl eq_refl eq_refl eq_refl).
Defined.

(** A record whose [id] is a number: [TypeError], nothing written, be it
    that the content differs or that the proxy flag does. *)
Lemma set_record_identifier_not_a_string_witness :
  (exists st',
     set_record Script.env cf0 hostname v4 false
       (Script.start
          [Script.found (VDict {[ "id" := VInt 7;
                                  "content" := VStr "198.51.100.4" ]})])
     = (st', Raise TypeError)
     /\ calls st' = [ApiCall (lookup_request Script.env cf0 hostname (VStr "A"))])
  /\
  (exists st',
     set_record Script.env cf0 hostname v4 false
       (Script.start
          [Script.found (VDict {[ "id" := VInt 7; "content" := VStr v4;
                                  "proxied" := VBool true ]})])
     = (st', Raise TypeError)
     /\ calls st' = [ApiCall (lookup_request Script.env cf0 hostname (VStr "A"))]).
Proof.
  assert (answers Script.env
            (world (Script.start
                      [Script.found (VDict {[ "id" := VInt 7;
                                              "content" := VStr "198.51.100.4" ]})]))
            (lookup_request Script.env cf0 hostname (VStr "A"))
            (VDict {[ "result" := VList [VDict {[ "id" := VInt 7;
                                                  "content" := VStr "198.51.100.4" ]}] ]})
            []) as Ha.
  { eexists. split; [reflexivity|]. split; reflexivity. }
  assert (answers Script.env
            (world (Script.start
                      [Script.found (VDict {[ "id" := VInt 7; "content" := VStr v4;
                                              "proxied" := VBool true ]})]))
            (lookup_request Script.env cf0 hostname (VStr "A"))
            (VDict {[ "result" := VList [VDict {[ "id" := VInt 7;
                                                  "content" := VStr v4;
                                                  "proxied" := VBool true ]}] ]})
            []) as Hb.
  { eexists. split; [reflexivity|]. split; reflexivity. }
  assert (forall s, VInt 7 <> VStr s) as Hnot by discriminate.
  assert (exists proxied,
            ({[ "id" := VInt 7; "content" := VStr v4; "proxied" := VBool true ]}
               : gmap string pyval) !! "proxied" = Some proxied
            /\ py_eq_bool proxied false = false) as Hflag.
  { exists (VBool true). split; reflexivity. }
  split.
  - destruct (set_record_identifier_not_a_string Script.env cf0 hostname v4 false _
                "A" _ {[ "id" := VInt 7; "content" := VStr "198.51.100.4" ]} []
                (VInt 7) (VStr "198.51.100.4") [] eq_refl Ha eq_refl eq_refl Hnot
                eq_refl (or_introl eq_refl))
      as (st' & Hrun & _ & Hc & _).
    exists st'. split; [exact Hrun|exact Hc].
  - destruct (set_record_identifier_not_a_string Script.env cf0 hostname v4 false _
                "A" _ {[ "id" := VInt 7; "content" := VStr v4;
                         "proxied" := VBool true ]} []
                (VInt 7) (VStr v4) [] eq_refl Hb eq_refl eq_refl Hnot
                eq_refl (or_intror Hflag))
      as (st' & Hrun & _ & Hc & _).
    exists st'. split; [exact Hrun|exact Hc].
Defined.

(** The full run on the fresh zone: after the zone lookup and the two echo
    requests, every request is about one of the two resolved addresses, in
    the zone [z1], and both addresses are looked up. *)
Lemma main_requests_concern_resolved_addresses_witness :
  exists recs,
    calls (fst (main E0 hostname false [ipify; icanhazip] (start fresh)))
    = ApiCall (zone_request (client "me@example.com" "s3cr3t") "example.com")
      :: map GetCall [ipify; icanhazip] ++ recs
    /\ Forall (fun c => exists value,
                 value ∈ ({[ v4 ]} ∪ {[ v6 ]} : gset string)
                 /\ record_call E0 cf0 hostname false value c) recs
    /\ ApiCall (lookup_request E0 cf0 hostname (VStr "A")) ∈ recs
    /\ ApiCall (lookup_request E0 cf0 hostname (VStr "AAAA")) ∈ recs.
Proof.
  assert ("me@example.com" <> "") as He by discriminate.
  assert ("s3cr3t" <> "") as Ht by discriminate.
  assert (answers E0 (world (start fresh))
            (zone_request (client "me@example.com" "s3cr3t") (domain_of hostname))
            (VDict {[ "result" := VList [VDict {[ "id" := VStr "z1" ]}] ]}) fresh)
    as Ha.
  { eexists. split; [reflexivity|]. split; reflexivity. }
  assert (snd (main E0 hostname false [ipify; icanhazip] (start fresh)) = Return tt)
    as Hret by (vm_compute; reflexivity).
  assert (v4 ∈ ({[ v4 ]} ∪ {[ v6 ]} : gset string)) as Hin4
    by (apply elem_of_union_l, elem_of_singleton; reflexivity).
  assert (v6 ∈ ({[ v4 ]} ∪ {[ v6 ]} : gset string)) as Hin6
    by (apply elem_of_union_r, elem_of_singleton; reflexivity).
  destruct (main_requests_concern_resolved_addresses E0 hostname false
              [ipify; icanhazip] (start fresh) "me@example.com" "s3cr3t"
              _ {[ "id" := VStr "z1" ]} [] (VStr "z1") fresh
              scenario_set_iter_ok eq_refl eq_refl He eq_refl Ht
              Ha eq_refl eq_refl)
    as (recs & Hcalls & Hall & Hlook).
  exists recs. split; [exact Hcalls|]. split; [exact Hall|]. split.
  - exact (Hlook Hret v4 "A" Hin4 eq_refl).
  - exact (Hlook Hret v6 "AAAA" Hin6 eq_refl).
Defined.


(** With the only echo service out of reach the run returns after two
    calls. *)
Lemma main_with_nothing_to_reconcile_witness :
  exists st',
    main E0 hostname false ["https://down.example"] (start fresh) = (st', Return tt)
    /\ calls st'
       = [ApiCall (zone_request (client "me@example.com" "s3cr3t") "example.com");
          GetCall "https://down.example"].
Proof.
  assert ("me@example.com" <> "") as He by discriminate.
  assert ("s3cr3t" <> "") as Ht by discriminate.
  assert (answers E0 (world (start fresh))
            (zone_request (client "me@example.com" "s3cr3t") (domain_of hostname))
            (VDict {[ "result" := VList [VDict {[ "id" := VStr "z1" ]}] ]}) fresh)
    as Ha.
  { eexists. split; [reflexivity|]. split; reflexivity. }
  exact (main_with_nothing_to_reconcile E0 hostname false ["https://down.example"]
           (start fresh) "me@example.com" "s3cr3t" _ {[ "id" := VStr "z1" ]} []
           (VStr "z1") fresh scenario_set_iter_ok eq_refl eq_refl He eq_refl Ht
           Ha eq_refl eq_refl eq_refl).
Defined.

(** A hostname in a zone the provider does not know, and a provider that
    refuses the zone lookup: the run ends after that one call. *)
Lemma main_without_zone_witness :
  (exists st',
     main E0 "home.example.org" false [ipify] (start fresh)
     = (st', Raise (ValueError "example.org: No such domain"))
     /\ calls st'
        = [ApiCall (zone_request (client "me@example.com" "s3cr3t") "example.org")])
  /\
  (exists st',
     main Script.env hostname false [ipify] (Script.start [refuse 403 "forbidden"])
     = (st', Raise (HTTPError 403 "forbidden"))
     /\ calls st'
        = [ApiCall (zone_request (client "me@example.com" "s3cr3t") "example.com")]).
Proof.
  assert ("me@example.com" <> "") as He by discriminate.
  assert ("s3cr3t" <> "") as Ht by discriminate.
  split.
  - assert (answers E0 (world (start fresh))
              (zone_request (client "me@example.com" "s3cr3t")
                 (domain_of "home.example.org"))
              (VDict {[ "result" := VList [] ]}) fresh) as Ha.
    { eexists. split; [reflexivity|]. split; reflexivity. }
    assert (no_match ({[ "result" := VList [] ]} : gmap string pyval)) as Hno
      by (right; right; reflexivity).
    exact (proj1 (main_without_zone E0 "home.example.org" false [ipify]
                    (start fresh) "me@example.com" "s3cr3t"
                    eq_refl eq_refl He eq_refl Ht) _ fresh Ha Hno).
  - assert (refuses Script.env (world (Script.start [refuse 403 "forbidden"]))
              (zone_request (client "me@example.com" "s3cr3t") (domain_of hostname))
              403 "forbidden" []) as Hr.
    { eexists. split; [reflexivity|]. repeat split. }
    exact (proj2 (main_without_zone Script.env hostname false [ipify]
                    (Script.start [refuse 403 "forbidden"])
                    "me@example.com" "s3cr3t" eq_refl eq_refl He eq_refl Ht)
             403 "forbidden" [] Hr).
Defined.

(** The record that the first run created on the fresh zone is left alone
    by a second call. *)
Lemma set_record_recognises_its_own_write_witness :
  exists st',
    set_record E0 cf0 hostname v4 false
      (start (world (fst (set_record E0 cf0 hostname v4 false (start fresh)))))
    = (st', Return tt)
    /\ calls st' = [ApiCall (lookup_request E0 cf0 hostname (VStr "A"))].
Proof.
  assert (answers E0
            (world (start (world (fst (set_record E0 cf0 hostname v4 false
                                         (start fresh))))))
            (lookup_request E0 cf0 hostname (VStr "A"))
            (VDict {[ "result" :=
                        VList [VDict (<["id" := VStr "r1"]>
                                        (payload hostname (VStr "A") v4 false))] ]})
            (world (fst (set_record E0 cf0 hostname v4 false (start fresh)))))
    as Ha.
  { eexists. split; [vm_compute; reflexivity|]. split; reflexivity. }
  exact (set_record_recognises_its_own_write E0 cf0 hostname v4 false _ "A" _ []
           (VStr "r1") _ eq_refl Ha eq_refl).
Defined.

End FurtherWitnesses.
